(** * quotecast.utilities: session acquisition, data polling and
      subscription control of the quote feed client

    Shallow embedding of [src/quotecast/utilities.py].  The three
    operations are programs of a small state-and-exception monad over a
    [World] that holds what the Python code reaches through its
    collaborators: the network behind [session.send], the system clock
    behind [time.time], the log records emitted and the requests sent. *)

From Stdlib Require Import ZArith List String Ascii Bool Lia.
From Stdlib Require Import DecimalString.
Import ListNotations.
Local Open Scope string_scope.
Local Open Scope Z_scope.

(** ** Python built-ins used by the module *)

Module Py.

(** [str(n)] for an [int]: the decimal numeral, with a leading minus
    sign for negative numbers. *)
Definition str_of_int (n : Z) : string :=
  NilZero.string_of_int (Z.to_int n).

(** [sep.join(l)]. *)
Definition join (sep : string) (l : list string) : string :=
  String.concat sep l.

(** The one-character string holding a double quote (code 34). *)
Definition dquote : string := String "034"%char EmptyString.

(** [quoted s] is [s] between double quotes. *)
Definition quoted (s : string) : string := dquote ++ s ++ dquote.

(** [needle in haystack] for two [str]: substring test. *)
Fixpoint str_contains (needle haystack : string) : bool :=
  if String.prefix needle haystack then true
  else match haystack with
       | EmptyString => false
       | String _ rest => str_contains needle rest
       end.

(** Exceptions that reach this module.  All of them derive from
    [Exception], so an [except Exception] clause catches each one. *)
Inductive exn : Type :=
| AttributeError (msg : string)
| BrokenPipeError (msg : string)
| TypeError (msg : string)
| KeyError (key : string)
| JSONDecodeError (msg : string)
| ConnectionError (msg : string)
| Timeout (msg : string).

(** The values [json.loads] produces, which are also the values
    [get_session_id] can return: [None] is [PyNone], [False] is
    [PyBool false].  A [float] is kept as its binary64 bit pattern; a
    [dict] as its items in insertion order, keys distinct. *)
#[warnings="-register-all"]
Inductive obj : Type :=
| PyNone
| PyBool (b : bool)
| PyInt (n : Z)
| PyFloat (bits : Z)
| PyStr (s : string)
| PyList (items : list obj)
| PyDict (items : list (string * obj)).

(** [d.get(k)] on the items of a dict, [None] when absent. *)
Fixpoint dict_lookup (k : string) (items : list (string * obj)) : option obj :=
  match items with
  | [] => None
  | (k', v) :: rest => if String.eqb k k' then Some v else dict_lookup k rest
  end.

(** [x == 'k'] for an arbitrary value [x] and a [str] [k]. *)
Definition eq_str (k : string) (x : obj) : bool :=
  match x with
  | PyStr s => String.eqb s k
  | _ => false
  end.

End Py.

Import Py.

(** ** The data model *)

(** Severity of a log record. *)
Inductive Level : Type := DEBUG | INFO | FATAL.

(** What a log call is given as message or argument. *)
Inductive LogArg : Type :=
| ArgStr (s : string)
| ArgInt (n : Z)
| ArgObj (o : obj)
| ArgExn (e : exn).

Record Logger : Type := { logger_name : string }.

Record LogRecord : Type := {
  lr_logger : Logger;
  lr_level : Level;
  lr_msg : LogArg;
  lr_args : list LogArg
}.

(** [requests.Session], as far as the module touches it: its headers. *)
Record Session : Type := { headers : list (string * string) }.

(** [requests.Request] fields set by the module. *)
Record Request : Type := {
  method : string;
  url : string;
  data : option string;
  params : list (string * string)
}.

(** [session.prepare_request(request)]: the request with the session's
    headers attached. *)
Record PreparedRequest : Type := {
  p_request : Request;
  p_headers : list (string * string)
}.

(** [requests.Response], as far as the module reads it.  [json_result]
    is what [response.json()] does: return a value or raise.
    [cookies_now] is [response.cookies._now], the integer number of
    seconds since the epoch recorded by the cookie jar of the transport
    library when it processed the response. *)
Record Response : Type := {
  text : string;
  status_code : Z;
  json_result : exn + obj;
  cookies_now : Z
}.

(** Protocol messages of [quotecast.pb.quotecast_pb2]. *)
Record Metadata : Type := {
  response_datetime : string;
  request_duration : Z
}.

Record RawResponse : Type := {
  response_json : string;
  metadata : Metadata
}.

(** The [action] field is a protocol-buffer enum field: it holds an
    integer, and not only the declared numbers.  [product_id] is an
    integer field, printed in decimal by the f-string of [subscribe]. *)
Record SubscriptionRequest : Type := {
  action : Z;
  product_id : Z;
  label_list : list string
}.

(** ** The world and the monad of effects *)

(** What [session.send] does with a prepared request: answer or raise. *)
Inductive SendOutcome : Type :=
| Responds (r : Response)
| Fails (e : exn).

(** [network] and [clock] are the environment: the answer of the
    transport to each request and the successive readings of
    [time.time()].  [clock_reads], [log] and [sent] are the trace the
    program leaves: how many readings it took, the records it logged
    and the requests it handed to [session.send], oldest first. *)
Record World : Type := {
  network : PreparedRequest -> SendOutcome;
  clock : nat -> Z;
  clock_reads : nat;
  log : list LogRecord;
  sent : list PreparedRequest
}.

(** How a call ends: with a value or with an exception. *)
Inductive outcome (A : Type) : Type :=
| Return (a : A)
| Raise (e : exn).

Arguments Return {A} a.
Arguments Raise {A} e.

(** A computation runs in a world and ends with an outcome and the
    world it leaves; the effects made before an exception stay. *)
Definition M (A : Type) : Type := World -> outcome A * World.

Definition ret {A} (a : A) : M A := fun w => (Return a, w).

Definition bind {A B} (c : M A) (k : A -> M B) : M B :=
  fun w =>
    match c w with
    | (Return a, w') => k a w'
    | (Raise e, w') => (Raise e, w')
    end.

Definition raise {A} (e : exn) : M A := fun w => (Raise e, w).

(** [try: c  except Exception as e: h e]. *)
Definition try_except {A} (c : M A) (h : exn -> M A) : M A :=
  fun w =>
    match c w with
    | (Return a, w') => (Return a, w')
    | (Raise e, w') => h e w'
    end.

Declare Scope py_scope.
Delimit Scope py_scope with py.
Notation "x <- c ;; k" := (bind c (fun x => k))
  (at level 61, c at next level, right associativity) : py_scope.
Notation "c ;; k" := (bind c (fun _ => k))
  (at level 61, right associativity) : py_scope.
Local Open Scope py_scope.

(** [logger.<level>(msg, *args)]. *)
Definition emit (lg : Logger) (lvl : Level) (msg : LogArg) (args : list LogArg)
  : M unit :=
  fun w =>
    (Return tt,
     {| network := network w; clock := clock w; clock_reads := clock_reads w;
        log := log w ++ [ {| lr_logger := lg; lr_level := lvl;
                             lr_msg := msg; lr_args := args |} ];
        sent := sent w |}).

(** [time.time()]. *)
Definition time_time : M Z :=
  fun w =>
    (Return (clock w (clock_reads w)),
     {| network := network w; clock := clock w;
        clock_reads := S (clock_reads w);
        log := log w; sent := sent w |}).

(** [session.send(prepped, verify=False)]. *)
Definition session_send (prepped : PreparedRequest) : M Response :=
  fun w =>
    let w' := {| network := network w; clock := clock w;
                 clock_reads := clock_reads w; log := log w;
                 sent := sent w ++ [prepped] |} in
    match network w prepped with
    | Responds r => (Return r, w')
    | Fails e => (Raise e, w')
    end.

(** [response.json()]. *)
Definition response_json_call (r : Response) : M obj :=
  match json_result r with
  | inr v => ret v
  | inl e => raise e
  end.

(** ['k' in x]: key test on a dict, element test on a list, substring
    test on a str; the other values are not containers. *)
Definition py_in (k : string) (x : obj) : M bool :=
  match x with
  | PyDict items =>
      ret (match dict_lookup k items with Some _ => true | None => false end)
  | PyList items => ret (existsb (eq_str k) items)
  | PyStr s => ret (str_contains k s)
  | _ => raise (TypeError "argument is not iterable")
  end.

(** [x['k']], reached only after ['k' in x] held. *)
Definition py_getitem (k : string) (x : obj) : M obj :=
  match x with
  | PyDict items =>
      match dict_lookup k items with
      | Some v => ret v
      | None => raise (KeyError k)
      end
  | PyList _ => raise (TypeError "list indices must be integers or slices, not str")
  | PyStr _ => raise (TypeError "string indices must be integers")
  | _ => raise (TypeError "object is not subscriptable")
  end.

(** ** Calendar time: [time.localtime] and [time.strftime] *)

(** [time.struct_time], the fields the format reads. *)
Record struct_time : Type := {
  tm_year : Z;
  tm_mon : Z;
  tm_mday : Z;
  tm_hour : Z;
  tm_min : Z;
  tm_sec : Z
}.

(** Year, month and day of the proleptic Gregorian calendar for a day
    number counted from 1970-01-01.  Years run from March to February
    inside a 400-year era of 146097 days. *)
Definition civil_from_days (days : Z) : Z * Z * Z :=
  let z := days + 719468 in
  let era := z / 146097 in
  let doe := z mod 146097 in
  let yoe := (doe - doe / 1460 + doe / 36524 - doe / 146096) / 365 in
  let doy := doe - (365 * yoe + yoe / 4 - yoe / 100) in
  let mp := (5 * doy + 2) / 153 in
  let d := doy - (153 * mp + 2) / 5 + 1 in
  let m := if mp <? 10 then mp + 3 else mp - 9 in
  let y := yoe + era * 400 + (if m <=? 2 then 1 else 0) in
  (y, m, d).

(** The day number of a date, the inverse of [civil_from_days]. *)
Definition days_from_civil (ymd : Z * Z * Z) : Z :=
  let '(y, m, d) := ymd in
  let y := if m <=? 2 then y - 1 else y in
  let era := y / 400 in
  let yoe := y mod 400 in
  let doy := (153 * (if 2 <? m then m - 3 else m + 9) + 2) / 5 + d - 1 in
  let doe := yoe * 365 + yoe / 4 - yoe / 100 + doy in
  era * 146097 + doe - 719468.

(** [time.gmtime(t)] for an integer number of seconds. *)
Definition gmtime (t : Z) : struct_time :=
  let '(y, m, d) := civil_from_days (t / 86400) in
  let s := t mod 86400 in
  {| tm_year := y; tm_mon := m; tm_mday := d;
     tm_hour := s / 3600; tm_min := (s mod 3600) / 60; tm_sec := s mod 60 |}.

(** A number zero-padded to two digits, as [%m %d %H %M %S] print it. *)
Definition pad2 (n : Z) : string :=
  if n <? 10 then "0" ++ str_of_int n else str_of_int n.

(** [time.strftime('%Y-%m-%d %H:%M:%S', tm)]; [%Y] prints the year as
    a plain decimal numeral. *)
Definition strftime_Ymd_HMS (tm : struct_time) : string :=
  str_of_int (tm_year tm) ++ "-" ++ pad2 (tm_mon tm) ++ "-" ++ pad2 (tm_mday tm)
  ++ " " ++ pad2 (tm_hour tm) ++ ":" ++ pad2 (tm_min tm) ++ ":" ++ pad2 (tm_sec tm).

(** A decimal digit. *)
Definition is_digit (c : ascii) : bool :=
  let n := Z.of_nat (nat_of_ascii c) in (48 <=? n) && (n <=? 57).

(** The shape [YYYY-MM-DD HH:MM:SS]: nineteen characters, digits
    everywhere but for the two dashes, the space and the two colons. *)
Definition is_Ymd_HMS (s : string) : bool :=
  match list_ascii_of_string s with
  | [y1; y2; y3; y4; d1; m1; m2; d2; a1; a2; sp; h1; h2; c1; n1; n2; c2; s1; s2] =>
      forallb is_digit [y1; y2; y3; y4; m1; m2; a1; a2; h1; h2; n1; n2; s1; s2]
      && Ascii.eqb d1 "-" && Ascii.eqb d2 "-" && Ascii.eqb sp " "
      && Ascii.eqb c1 ":" && Ascii.eqb c2 ":"
  | _ => false
  end.

(** Four, respectively two, decimal digits and nothing else. *)
Definition four_digits (s : string) : bool :=
  match s with
  | String a (String b (String c (String d EmptyString))) =>
      is_digit a && is_digit b && is_digit c && is_digit d
  | _ => false
  end.

Definition two_digits (s : string) : bool :=
  match s with
  | String a (String b EmptyString) => is_digit a && is_digit b
  | _ => false
  end.

(** [P] holds of the [fuel] integers from [lo] on. *)
Fixpoint all_from (fuel : nat) (lo : Z) (P : Z -> bool) : bool :=
  match fuel with
  | O => true
  | S f => if P lo then all_from f (lo + 1) P else false
  end.

(** The first instant of the year 10000, in seconds since the epoch. *)
Definition year_10000 : Z := 253402300800.

(** ** The operations of [quotecast/utilities.py] *)

(** [d.update(other)] on dict items: a key already present keeps its
    place and takes the new value, a new key goes to the end. *)
Fixpoint dict_set (k v : string) (items : list (string * string))
  : list (string * string) :=
  match items with
  | [] => [(k, v)]
  | (k', v') :: rest =>
      if String.eqb k k' then (k, v) :: rest else (k', v') :: dict_set k v rest
  end.

Definition dict_update (items other : list (string * string))
  : list (string * string) :=
  fold_left (fun acc kv => dict_set (fst kv) (snd kv) acc) other items.

(** The literal compared with the body of a poll response. *)
Definition session_reset_body : string :=
  "[{" ++ quoted "m" ++ ":" ++ quoted "sr" ++ "}]".

(** ** Worlds for concrete runs *)

(** A fresh world over a given network: a clock that ticks once per
    reading, nothing logged and nothing sent yet. *)
Definition world_of (net : PreparedRequest -> SendOutcome) : World :=
  {| network := net; clock := fun n => Z.of_nat n; clock_reads := 0%nat;
     log := []; sent := [] |}.

(** A transport that answers every request with [r], and one that
    raises [e] on every request. *)
Definition answering (r : Response) : PreparedRequest -> SendOutcome :=
  fun _ => Responds r.

Definition failing (e : exn) : PreparedRequest -> SendOutcome :=
  fun _ => Fails e.

(** A response with the given body and status, received at [now], whose
    [json()] gives [parsed]. *)
Definition response_of (body : string) (status : Z) (parsed : exn + obj)
    (now : Z) : Response :=
  {| text := body; status_code := status; json_result := parsed;
     cookies_now := now |}.

(** The world an operation leaves when it took [reads] readings of the
    clock, logged [recs] and handed [reqs] to the transport. *)
Definition after (w : World) (reads : nat) (recs : list LogRecord)
    (reqs : list PreparedRequest) : World :=
  {| network := network w; clock := clock w;
     clock_reads := (reads + clock_reads w)%nat;
     log := log w ++ recs; sent := sent w ++ reqs |}.

(** The tokens of a control body, each closed by the separator. *)
Definition terminated (sep : string) (tokens : list string) : string :=
  String.concat "" (map (fun t => t ++ sep) tokens).

(** The parsed bodies on which the membership test of [get_session_id]
    is not defined: [None], booleans and numbers. *)
Definition not_a_container (v : obj) : Prop :=
  match v with
  | PyNone | PyBool _ | PyInt _ | PyFloat _ => True
  | PyStr _ | PyList _ | PyDict _ => False
  end.

(** [s] occurs inside [t]. *)
Definition occurs_in (s t : string) : Prop :=
  exists pre post, t = pre ++ s ++ post.

(** Values for the constants the source imports, for concrete runs:
    an endpoint, a version, one header, and local time one hour ahead
    of UTC. *)
Definition demo_url : string := "https://feed.example/CORS".
Definition demo_version : string := "1.0.20201211".
Definition demo_headers : list (string * string) := [("User-Agent", "demo")].
Definition demo_offset : Z -> Z := fun _ => 3600.

(** A subscription to one label of product 5, and a plain answer with
    status 200. *)
Definition demo_request : SubscriptionRequest :=
  {| action := 0; product_id := 5; label_list := ["LastPrice"] |}.

Definition demo_ok : Response := response_of "" 200 (inr PyNone) 0.

(** A body of update messages, as the specification quotes it. *)
Definition demo_updates : string :=
  "[{" ++ quoted "m" ++ ":" ++ quoted "u" ++ "," ++ quoted "v" ++ ":[1,2]}]".

Section Utilities.

(** Constants of [quotecast.constants] and of the generated protocol
    module, which the source imports: the endpoint, the headers, the two
    numbers of the [Action] enum.  [requests_headers] are the headers a
    fresh [requests.Session] starts with, and [utcoffset t] is the
    offset in seconds of local time from UTC at instant [t]. *)
Variable Endpoint_URL : string.
Variable Endpoint_VERSION : string.
Variable Headers_get_headers : list (string * string).
Variable requests_headers : list (string * string).
Variable SUBSCRIBE : Z.
Variable UNSUBSCRIBE : Z.
Variable utcoffset : Z -> Z.

(** [time.localtime(t)]. *)
Definition localtime (t : Z) : struct_time := gmtime (t + utcoffset t).

(** [build_session(headers)]; [None] stands for every argument that is
    not a dict. *)
Definition build_session (hdrs : option (list (string * string))) : Session :=
  match hdrs with
  | Some h => {| headers := dict_update requests_headers h |}
  | None => {| headers := dict_update requests_headers Headers_get_headers |}
  end.

(** [build_logger()]: the logger named after the module. *)
Definition build_logger : Logger := {| logger_name := "quotecast.utilities" |}.

Definition prepare_request (session : Session) (request : Request)
  : PreparedRequest :=
  {| p_request := request; p_headers := headers session |}.

Definition or_default {A} (x : option A) (d : A) : A :=
  match x with Some a => a | None => d end.

(** [get_session_id(user_token, session, logger)].  The [try] block
    ends either with the parsed body ([inr]) or, through the handler,
    with the value the function returns at once ([inl]). *)
Definition get_session_id (user_token : Z) (session : option Session)
    (logger : option Logger) : M obj :=
  let logger := or_default logger build_logger in
  let session := or_default session (build_session None) in
  let url := Endpoint_URL in
  let url := url ++ "/request_session" in
  let version := Endpoint_VERSION in
  let parameters := [("version", version); ("userToken", str_of_int user_token)] in
  let data := "{" ++ quoted "referrer" ++ ":" ++ quoted "https://trader.degiro.nl" ++ "}" in
  let request :=
    {| method := "POST"; url := url; data := Some data; params := parameters |} in
  let prepped := prepare_request session request in
  tried <- try_except
             (response <- session_send prepped ;;
              response_dict <- response_json_call response ;;
              ret (inr response_dict))
             (fun e => emit logger FATAL (ArgExn e) [] ;;
                       ret (inl (PyBool false))) ;;
  match tried with
  | inl early => ret early
  | inr response_dict =>
      emit logger INFO (ArgStr "get_session_id:response_dict: %s")
           [ArgObj response_dict] ;;
      has <- py_in "sessionId" response_dict ;;
      if has : bool then py_getitem "sessionId" response_dict
      else ret PyNone
  end.

(** [fetch_data(session_id, session, logger)]. *)
Definition fetch_data (session_id : string) (session : option Session)
    (logger : option Logger) : M RawResponse :=
  let logger := or_default logger build_logger in
  let session := or_default session (build_session None) in
  let url := Endpoint_URL in
  let url := url ++ "/" ++ session_id in
  let request := {| method := "GET"; url := url; data := None; params := [] |} in
  let prepped := prepare_request session request in
  start <- time_time ;;
  response <- session_send prepped ;;
  stop <- time_time ;;
  let elapsed := stop - start in
  if String.eqb (text response) session_reset_body then
    raise (BrokenPipeError ("A new " ++ quoted "session_id" ++ " is required."))
  else
    let received := strftime_Ymd_HMS (localtime (cookies_now response)) in
    let metadata :=
      {| response_datetime := received; request_duration := elapsed |} in
    let raw_response :=
      {| response_json := text response; metadata := metadata |} in
    emit logger DEBUG (ArgStr "fetch_data:raw_response.response_json: %s")
         [ArgStr (response_json raw_response)] ;;
    emit logger DEBUG (ArgStr "fetch_data:raw_response.response_datetime: %s")
         [ArgStr (response_datetime metadata)] ;;
    emit logger DEBUG (ArgStr "fetch_data:raw_response.request_duration: %s")
         [ArgInt (request_duration metadata)] ;;
    ret raw_response.

(** The body of the loop of [subscribe]: [data.append(f'...')]. *)
Definition append_token (verb : string) (pid : Z) (data : list string)
    (label : string) : list string :=
  data ++ [verb ++ "(" ++ str_of_int pid ++ "." ++ label ++ ")"].

(** [subscribe(subscription_request, session_id, session, logger)]. *)
Definition subscribe (subscription_request : SubscriptionRequest)
    (session_id : string) (session : option Session) (logger : option Logger)
  : M bool :=
  let logger := or_default logger build_logger in
  let session := or_default session (build_session None) in
  let url := Endpoint_URL in
  let url := url ++ "/" ++ session_id in
  verb <- (if action subscription_request =? SUBSCRIBE then ret "req"
           else if action subscription_request =? UNSUBSCRIBE then ret "rel"
           else raise (AttributeError
                         ("Unknown " ++ quoted "Request.action" ++ "."))) ;;
  let data :=
    fold_left (append_token verb (product_id subscription_request))
              (label_list subscription_request) [] in
  let data :=
    "{" ++ quoted "controlData" ++ ":" ++ dquote ++ join ";" data ++ ";"
    ++ dquote ++ "}" in
  let request := {| method := "POST"; url := url; data := Some data; params := [] |} in
  let prepped := prepare_request session request in
  emit logger INFO (ArgStr "subscribe:payload: %s") [ArgStr data] ;;
  tried <- try_except
             (response <- session_send prepped ;; ret (inr response))
             (fun e => emit logger FATAL (ArgExn e) [] ;; ret (inl false)) ;;
  match tried with
  | inl early => ret early
  | inr response =>
      emit logger DEBUG (ArgStr "subscribe:response.text: %s")
           [ArgStr (text response)] ;;
      emit logger DEBUG (ArgStr "subscribe:response.status_code: %s")
           [ArgInt (status_code response)] ;;
      ret (status_code response =? 200)
  end.

(** *** The statements of the specification, in its own words *)

(** The control token [{verb}({product_id}.{label})]. *)
Definition spec_control_token (verb : string) (pid : Z) (label : string)
  : string :=
  verb ++ "(" ++ str_of_int pid ++ "." ++ label ++ ")".

(** The tokens of the labels in input order, joined by [;], closed by a
    trailing [;] and wrapped as the value of [controlData]. *)
Definition spec_control_payload (verb : string) (pid : Z) (labels : list string)
  : string :=
  "{" ++ quoted "controlData" ++ ":" ++ dquote
  ++ join ";" (map (spec_control_token verb pid) labels) ++ ";"
  ++ dquote ++ "}".

(** The verb of a request whose action is one of the two declared. *)
Definition spec_verb (a : Z) : string :=
  if a =? SUBSCRIBE then "req" else "rel".

Definition valid_action (a : Z) : Prop := a = SUBSCRIBE \/ a = UNSUBSCRIBE.

(** The requests the three operations hand to the transport. *)
Definition acquisition_request (user_token : Z) (session : option Session)
  : PreparedRequest :=
  prepare_request (or_default session (build_session None))
    {| method := "POST"; url := Endpoint_URL ++ "/request_session";
       data := Some ("{" ++ quoted "referrer" ++ ":"
                     ++ quoted "https://trader.degiro.nl" ++ "}");
       params := [("version", Endpoint_VERSION);
                  ("userToken", str_of_int user_token)] |}.

Definition poll_request (session_id : string) (session : option Session)
  : PreparedRequest :=
  prepare_request (or_default session (build_session None))
    {| method := "GET"; url := Endpoint_URL ++ "/" ++ session_id;
       data := None; params := [] |}.

Definition control_request (body session_id : string) (session : option Session)
  : PreparedRequest :=
  prepare_request (or_default session (build_session None))
    {| method := "POST"; url := Endpoint_URL ++ "/" ++ session_id;
       data := Some body; params := [] |}.

(** The request [subscribe] sends for a valid action. *)
Definition subscribe_request (req : SubscriptionRequest) (sid : string)
    (session : option Session) : PreparedRequest :=
  control_request
    (spec_control_payload (spec_verb (action req)) (product_id req)
                          (label_list req))
    sid session.

(** The responses on which acquisition is sure to return: the send
    raised, the body did not parse, or it parsed to a key/value
    structure. *)
Definition acquisition_settled (o : SendOutcome) : Prop :=
  match o with
  | Fails _ => True
  | Responds r =>
      match json_result r with
      | inl _ => True
      | inr (PyDict _) => True
      | inr _ => False
      end
  end.

(** The answers on which polling raises: the send raised, or the body
    is the reset literal. *)
Definition poll_raises (o : SendOutcome) : Prop :=
  match o with
  | Fails _ => True
  | Responds r => text r = session_reset_body
  end.

(** Acquisition met an exception inside its [try] block: the send
    raised, or the body did not parse. *)
Definition acquisition_failed (o : SendOutcome) : bool :=
  match o with
  | Fails _ => true
  | Responds r => match json_result r with inl _ => true | inr _ => false end
  end.

(** The record acquisition logs: the exception at fatal severity, or
    the parsed body at info severity. *)
Definition acquisition_record (lg : Logger) (o : SendOutcome) : LogRecord :=
  match o with
  | Fails e => Build_LogRecord lg FATAL (ArgExn e) []
  | Responds r =>
      match json_result r with
      | inl e => Build_LogRecord lg FATAL (ArgExn e) []
      | inr v =>
          Build_LogRecord lg INFO
            (ArgStr "get_session_id:response_dict: %s") [ArgObj v]
      end
  end.

(** The three records a successful poll logs, from the fields of the
    Raw Response it returns. *)
Definition poll_records (lg : Logger) (raw : RawResponse) : list LogRecord :=
  [ Build_LogRecord lg DEBUG
      (ArgStr "fetch_data:raw_response.response_json: %s")
      [ArgStr (response_json raw)];
    Build_LogRecord lg DEBUG
      (ArgStr "fetch_data:raw_response.response_datetime: %s")
      [ArgStr (response_datetime (metadata raw))];
    Build_LogRecord lg DEBUG
      (ArgStr "fetch_data:raw_response.request_duration: %s")
      [ArgInt (request_duration (metadata raw))] ].

(** ** Facts about the runs *)

Ltac run_py :=
  cbv [bind ret raise try_except emit session_send time_time
       response_json_call or_default];
  cbn [fst snd log sent network clock clock_reads].

(** *** Calendar time *)

Lemma all_from_spec (fuel : nat) :
  forall lo P, all_from fuel lo P = true ->
  forall z, lo <= z < lo + Z.of_nat fuel -> P z = true.
Proof using.
  induction fuel as [|f IH]; intros lo P H z Hz; [lia|].
  simpl in H. destruct (P lo) eqn:E; [|discriminate].
  destruct (Z.eq_dec z lo) as [->|N]; [exact E|].
  apply (IH (lo + 1) P H). lia.
Qed.

(** Every day from the epoch to the end of the year 9999 has a year of
    four digits, a month in 1..12 and a day in 1..31. *)
Lemma civil_from_days_ranges (days : Z) :
  0 <= days <= 2932896 ->
  1970 <= fst (fst (civil_from_days days)) <= 9999
  /\ 1 <= snd (fst (civil_from_days days)) <= 12
  /\ 1 <= snd (civil_from_days days) <= 31.
Proof using.
  (* [utcoffset : Z -> Z] would reach the arithmetic solver as a
     hypothesis; the calendar facts do not depend on it. *)
  clear utcoffset.
  intros H. unfold civil_from_days. cbv zeta. cbn [fst snd].
  set (z := days + 719468).
  set (doe := z mod 146097).
  set (yoe := (doe - doe / 1460 + doe / 36524 - doe / 146096) / 365).
  set (doy := doe - (365 * yoe + yoe / 4 - yoe / 100)).
  set (mp := (5 * doy + 2) / 153).
  destruct (Z.ltb_spec mp 10);
    [destruct (Z.leb_spec (mp + 3) 2) | destruct (Z.leb_spec (mp - 9) 2)];
    subst mp doy yoe doe z; Z.div_mod_to_equations; lia.
Qed.

(** No two days share a date: counting the days of the date gives the
    day back. *)
Lemma days_from_civil_from_days (days : Z) :
  days_from_civil (civil_from_days days) = days.
Proof using.
  clear utcoffset.
  unfold days_from_civil, civil_from_days. cbv zeta.
  set (z := days + 719468).
  set (doe := z mod 146097).
  set (yoe := (doe - doe / 1460 + doe / 36524 - doe / 146096) / 365).
  set (doy := doe - (365 * yoe + yoe / 4 - yoe / 100)).
  set (mp := (5 * doy + 2) / 153).
  destruct (Z.ltb_spec mp 10);
    [destruct (Z.leb_spec (mp + 3) 2); destruct (Z.ltb_spec 2 (mp + 3))
    | destruct (Z.leb_spec (mp - 9) 2); destruct (Z.ltb_spec 2 (mp - 9))];
    subst mp doy yoe doe z; Z.div_mod_to_equations; lia.
Qed.

Lemma gmtime_ranges (t : Z) :
  0 <= t < year_10000 ->
  1970 <= tm_year (gmtime t) <= 9999
  /\ 1 <= tm_mon (gmtime t) <= 12
  /\ 1 <= tm_mday (gmtime t) <= 31
  /\ 0 <= tm_hour (gmtime t) <= 23
  /\ 0 <= tm_min (gmtime t) <= 59
  /\ 0 <= tm_sec (gmtime t) <= 59.
Proof using.
  clear utcoffset.
  unfold year_10000. intros H.
  assert (D : 0 <= t / 86400 <= 2932896) by (Z.div_mod_to_equations; lia).
  pose proof (civil_from_days_ranges _ D) as R.
  unfold gmtime. destruct (civil_from_days (t / 86400)) as [[y m] d].
  cbn [fst snd tm_year tm_mon tm_mday tm_hour tm_min tm_sec] in *.
  repeat split; try lia; Z.div_mod_to_equations; lia.
Qed.

Lemma year_four_digits (y : Z) :
  1000 <= y <= 9999 -> four_digits (str_of_int y) = true.
Proof using.
  intros H.
  apply (all_from_spec (Z.to_nat 9000) 1000
                       (fun y => four_digits (str_of_int y)));
    [vm_compute; reflexivity | rewrite Z2Nat.id; lia].
Qed.

Lemma pad2_two_digits (n : Z) :
  0 <= n <= 99 -> two_digits (pad2 n) = true.
Proof using.
  intros H.
  apply (all_from_spec (Z.to_nat 100) 0 (fun n => two_digits (pad2 n)));
    [vm_compute; reflexivity | rewrite Z2Nat.id; lia].
Qed.

Ltac split_digits H :=
  repeat match type of H with
         | (_ && _) = true => apply andb_prop in H; destruct H as [H ?]
         end.

Lemma Ymd_HMS_shape (Y m d H M S : string) :
  four_digits Y = true -> two_digits m = true -> two_digits d = true ->
  two_digits H = true -> two_digits M = true -> two_digits S = true ->
  is_Ymd_HMS (Y ++ "-" ++ m ++ "-" ++ d ++ " " ++ H ++ ":" ++ M ++ ":" ++ S)
  = true.
Proof using.
  intros HY Hm Hd HH HM HS.
  destruct Y as [|y1 [|y2 [|y3 [|y4 [|? ?]]]]]; try discriminate.
  destruct m as [|m1 [|m2 [|? ?]]]; try discriminate.
  destruct d as [|d1 [|d2 [|? ?]]]; try discriminate.
  destruct H as [|h1 [|h2 [|? ?]]]; try discriminate.
  destruct M as [|n1 [|n2 [|? ?]]]; try discriminate.
  destruct S as [|s1 [|s2 [|? ?]]]; try discriminate.
  cbn [four_digits two_digits] in *.
  split_digits HY; split_digits Hm; split_digits Hd;
    split_digits HH; split_digits HM; split_digits HS.
  cbn [append list_ascii_of_string is_Ymd_HMS forallb].
  repeat match goal with E : is_digit _ = true |- _ => rewrite E; clear E end.
  reflexivity.
Qed.

(** Between the epoch and the year 10000 the formatted time has the
    shape [YYYY-MM-DD HH:MM:SS]. *)
Lemma strftime_gmtime_shape (t : Z) :
  0 <= t < year_10000 -> is_Ymd_HMS (strftime_Ymd_HMS (gmtime t)) = true.
Proof using.
  intros H. destruct (gmtime_ranges t H) as (Ry & Rm & Rd & Rh & Rn & Rs).
  unfold strftime_Ymd_HMS.
  apply Ymd_HMS_shape;
    [apply year_four_digits | apply pad2_two_digits ..]; lia.
Qed.

(** *** The three operations *)

(** The loop of [subscribe] builds the tokens of the labels in order. *)
Lemma fold_append_token (verb : string) (pid : Z) (labels acc : list string) :
  fold_left (append_token verb pid) labels acc
  = (acc ++ map (spec_control_token verb pid) labels)%list.
Proof using.
  revert acc; induction labels as [|l labels IH]; intros acc; simpl.
  - now rewrite app_nil_r.
  - rewrite IH. unfold append_token, spec_control_token.
    now rewrite <- app_assoc.
Qed.

Lemma spec_verb_cases (a : Z) :
  valid_action a ->
  (a =? SUBSCRIBE) = true /\ spec_verb a = "req"
  \/ (a =? SUBSCRIBE) = false /\ (a =? UNSUBSCRIBE) = true /\ spec_verb a = "rel".
Proof using.
  unfold valid_action, spec_verb. intros H.
  destruct (Z.eqb_spec a SUBSCRIBE) as [E|N]; [left; auto|right].
  destruct H as [H|H]; [contradiction|].
  repeat split; auto. now apply Z.eqb_eq.
Qed.

(** An action outside the enum: the call raises and leaves the world
    as it found it. *)
Lemma subscribe_invalid_run (req : SubscriptionRequest) (sid : string)
    (session : option Session) (logger : option Logger) (w : World) :
  ~ valid_action (action req) ->
  subscribe req sid session logger w
  = (Raise (AttributeError ("Unknown " ++ quoted "Request.action" ++ ".")), w).
Proof using.
  clear utcoffset.
  unfold valid_action. intros H. unfold subscribe. run_py.
  destruct (Z.eqb_spec (action req) SUBSCRIBE) as [E|_]; [tauto|].
  destruct (Z.eqb_spec (action req) UNSUBSCRIBE) as [E|_]; [tauto|].
  reflexivity.
Qed.

(** A valid action and a transport that answers. *)
Lemma subscribe_responds_run (req : SubscriptionRequest) (sid : string)
    (session : option Session) (logger : option Logger) (w : World)
    (r : Response) :
  valid_action (action req) ->
  network w (subscribe_request req sid session) = Responds r ->
  let lg := or_default logger build_logger in
  let body := spec_control_payload (spec_verb (action req)) (product_id req)
                                   (label_list req) in
  fst (subscribe req sid session logger w) = Return (status_code r =? 200)
  /\ sent (snd (subscribe req sid session logger w))
     = (sent w ++ [subscribe_request req sid session])%list
  /\ log (snd (subscribe req sid session logger w))
     = (log w
       ++ [ {| lr_logger := lg; lr_level := INFO;
               lr_msg := ArgStr "subscribe:payload: %s";
               lr_args := [ArgStr body] |};
            {| lr_logger := lg; lr_level := DEBUG;
               lr_msg := ArgStr "subscribe:response.text: %s";
               lr_args := [ArgStr (text r)] |};
            {| lr_logger := lg; lr_level := DEBUG;
               lr_msg := ArgStr "subscribe:response.status_code: %s";
               lr_args := [ArgInt (status_code r)] |} ])%list.
Proof using.
  intros V N lg body. subst lg body.
  unfold subscribe_request, control_request, spec_control_payload in *.
  unfold subscribe. run_py.
  destruct (spec_verb_cases _ V) as [[E1 E]|[E1 [E2 E]]];
    rewrite E in *; rewrite E1; try rewrite E2; cbn [fst snd];
    rewrite fold_append_token; cbn [app]; cbv [or_default] in N;
    rewrite N; cbn [fst snd log sent]; rewrite <- !app_assoc; auto.
Qed.

(** A valid action and a transport that raises. *)
Lemma subscribe_fails_run (req : SubscriptionRequest) (sid : string)
    (session : option Session) (logger : option Logger) (w : World)
    (e : exn) :
  valid_action (action req) ->
  network w (subscribe_request req sid session) = Fails e ->
  let lg := or_default logger build_logger in
  let body := spec_control_payload (spec_verb (action req)) (product_id req)
                                   (label_list req) in
  fst (subscribe req sid session logger w) = Return false
  /\ sent (snd (subscribe req sid session logger w))
     = (sent w ++ [subscribe_request req sid session])%list
  /\ log (snd (subscribe req sid session logger w))
     = (log w
       ++ [ {| lr_logger := lg; lr_level := INFO;
               lr_msg := ArgStr "subscribe:payload: %s";
               lr_args := [ArgStr body] |};
            {| lr_logger := lg; lr_level := FATAL;
               lr_msg := ArgExn e; lr_args := [] |} ])%list.
Proof using.
  intros V N lg body. subst lg body.
  unfold subscribe_request, control_request, spec_control_payload in *.
  unfold subscribe. run_py.
  destruct (spec_verb_cases _ V) as [[E1 E]|[E1 [E2 E]]];
    rewrite E in *; rewrite E1; try rewrite E2; cbn [fst snd];
    rewrite fold_append_token; cbn [app]; cbv [or_default] in N;
    rewrite N; cbn [fst snd log sent]; rewrite <- !app_assoc; auto.
Qed.

(** Acquisition when the send raises: the handler logs and the call
    returns [False]. *)
Lemma get_session_id_send_fails_run (user_token : Z) (session : option Session)
    (logger : option Logger) (w : World) (e : exn) :
  network w (acquisition_request user_token session) = Fails e ->
  fst (get_session_id user_token session logger w) = Return (PyBool false)
  /\ sent (snd (get_session_id user_token session logger w))
     = (sent w ++ [acquisition_request user_token session])%list
  /\ log (snd (get_session_id user_token session logger w))
     = (log w ++ [ {| lr_logger := or_default logger build_logger;
                      lr_level := FATAL; lr_msg := ArgExn e;
                      lr_args := [] |} ])%list.
Proof using.
  intros N. unfold acquisition_request in *. unfold get_session_id. run_py.
  cbv [or_default] in N. rewrite N. cbn [fst snd log sent]. auto.
Qed.

(** Acquisition when [response.json()] raises: the same handler. *)
Lemma get_session_id_parse_fails_run (user_token : Z) (session : option Session)
    (logger : option Logger) (w : World) (r : Response) (e : exn) :
  network w (acquisition_request user_token session) = Responds r ->
  json_result r = inl e ->
  fst (get_session_id user_token session logger w) = Return (PyBool false)
  /\ sent (snd (get_session_id user_token session logger w))
     = (sent w ++ [acquisition_request user_token session])%list
  /\ log (snd (get_session_id user_token session logger w))
     = (log w ++ [ {| lr_logger := or_default logger build_logger;
                      lr_level := FATAL; lr_msg := ArgExn e;
                      lr_args := [] |} ])%list.
Proof using.
  intros N J. unfold acquisition_request in *. unfold get_session_id. run_py.
  cbv [or_default] in N. rewrite N, J. cbn [fst snd log sent]. auto.
Qed.

(** Acquisition when the body parses to a dict. *)
Lemma get_session_id_dict_run (user_token : Z) (session : option Session)
    (logger : option Logger) (w : World) (r : Response)
    (items : list (string * obj)) :
  network w (acquisition_request user_token session) = Responds r ->
  json_result r = inr (PyDict items) ->
  fst (get_session_id user_token session logger w)
  = Return (match dict_lookup "sessionId" items with
            | Some v => v
            | None => PyNone
            end)
  /\ sent (snd (get_session_id user_token session logger w))
     = (sent w ++ [acquisition_request user_token session])%list
  /\ log (snd (get_session_id user_token session logger w))
     = (log w ++ [ {| lr_logger := or_default logger build_logger;
                      lr_level := INFO;
                      lr_msg := ArgStr "get_session_id:response_dict: %s";
                      lr_args := [ArgObj (PyDict items)] |} ])%list.
Proof using.
  intros N J. unfold acquisition_request in *. unfold get_session_id. run_py.
  cbv [or_default] in N. rewrite N, J. cbn [fst snd log sent].
  unfold py_in, py_getitem. run_py.
  destruct (dict_lookup "sessionId" items); cbn [fst snd log sent]; auto.
Qed.

(** Acquisition when the body parses to a value that is no container:
    the membership test raises, outside the [try] block. *)
Lemma get_session_id_scalar_run (user_token : Z) (session : option Session)
    (logger : option Logger) (w : World) (r : Response) (v : obj) :
  network w (acquisition_request user_token session) = Responds r ->
  json_result r = inr v ->
  match v with PyDict _ | PyList _ | PyStr _ => False | _ => True end ->
  fst (get_session_id user_token session logger w)
  = Raise (TypeError "argument is not iterable").
Proof using.
  intros N J S. unfold acquisition_request in *. unfold get_session_id. run_py.
  cbv [or_default] in N. rewrite N, J. cbn [fst snd log sent].
  destruct v; try contradiction; reflexivity.
Qed.

(** Polling when the send raises: nothing catches the exception. *)
Lemma fetch_data_send_fails_run (sid : string) (session : option Session)
    (logger : option Logger) (w : World) (e : exn) :
  network w (poll_request sid session) = Fails e ->
  fst (fetch_data sid session logger w) = Raise e
  /\ sent (snd (fetch_data sid session logger w))
     = (sent w ++ [poll_request sid session])%list
  /\ log (snd (fetch_data sid session logger w)) = log w.
Proof using.
  intros N. unfold poll_request in *. unfold fetch_data. run_py.
  cbv [or_default] in N. rewrite N. cbn [fst snd log sent]. auto.
Qed.

(** Polling when the body is the reset literal. *)
Lemma fetch_data_reset_run (sid : string) (session : option Session)
    (logger : option Logger) (w : World) (r : Response) :
  network w (poll_request sid session) = Responds r ->
  text r = session_reset_body ->
  fst (fetch_data sid session logger w)
  = Raise (BrokenPipeError ("A new " ++ quoted "session_id" ++ " is required."))
  /\ log (snd (fetch_data sid session logger w)) = log w.
Proof using.
  intros N T. unfold poll_request in *. unfold fetch_data. run_py.
  cbv [or_default] in N. rewrite N. cbn [fst snd log sent].
  rewrite T, String.eqb_refl. auto.
Qed.

(** Polling with any other body. *)
Lemma fetch_data_returns_run (sid : string) (session : option Session)
    (logger : option Logger) (w : World) (r : Response) :
  network w (poll_request sid session) = Responds r ->
  text r <> session_reset_body ->
  fst (fetch_data sid session logger w)
  = Return
      {| response_json := text r;
         metadata :=
           {| response_datetime :=
                strftime_Ymd_HMS (localtime (cookies_now r));
              request_duration :=
                clock w (S (clock_reads w)) - clock w (clock_reads w) |} |}
  /\ sent (snd (fetch_data sid session logger w))
     = (sent w ++ [poll_request sid session])%list.
Proof using.
  intros N T. unfold poll_request in *. unfold fetch_data. run_py.
  cbv [or_default] in N. rewrite N. cbn [fst snd log sent].
  apply String.eqb_neq in T. rewrite T. cbn [fst snd log sent]. auto.
Qed.

(** *** The claims *)

(** C1.  When the transport answers a poll, [fetch_data] raises the
    session-expired error ([BrokenPipeError]) if the body is exactly the
    reset literal, and for every other body returns a Raw Response whose
    [response_json] is that body, unchanged. *)
Theorem fetch_data_session_reset (sid : string) (session : option Session)
    (logger : option Logger) (w : World) (r : Response) :
  network w (poll_request sid session) = Responds r ->
  (text r = session_reset_body ->
   fst (fetch_data sid session logger w)
   = Raise (BrokenPipeError
              ("A new " ++ quoted "session_id" ++ " is required.")))
  /\ (text r <> session_reset_body ->
      exists raw, fst (fetch_data sid session logger w) = Return raw
                  /\ response_json raw = text r).
Proof using.
  intros N. split; intros T.
  - apply (fetch_data_reset_run sid session logger w r N T).
  - destruct (fetch_data_returns_run sid session logger w r N T) as [E _].
    eexists. split; [exact E | reflexivity].
Qed.

(** C2.  For a valid action, the request [subscribe] hands to the
    transport is the POST whose body is the [controlData] wrapping of the
    tokens [{verb}({product_id}.{label})] of the labels in input order,
    joined by [;] and closed by a trailing [;]. *)
Theorem subscribe_payload (req : SubscriptionRequest) (sid : string)
    (session : option Session) (logger : option Logger) (w : World) :
  valid_action (action req) ->
  sent (snd (subscribe req sid session logger w))
  = (sent w
     ++ [control_request
           (spec_control_payload (spec_verb (action req)) (product_id req)
                                 (label_list req))
           sid session])%list.
Proof using.
  intros V.
  destruct (network w (subscribe_request req sid session)) as [r|e] eqn:N.
  - apply (subscribe_responds_run req sid session logger w r V N).
  - apply (subscribe_fails_run req sid session logger w e V N).
Qed.

(** C3.  With the two enum numbers distinct, the verb in the body is
    [req] for [SUBSCRIBE] and [rel] for [UNSUBSCRIBE]; for any other
    action the call raises [AttributeError] and the world is left as it
    was, so no verb is chosen by default. *)
Theorem subscribe_verb (req : SubscriptionRequest) (sid : string)
    (session : option Session) (logger : option Logger) (w : World) :
  SUBSCRIBE <> UNSUBSCRIBE ->
  (action req = SUBSCRIBE ->
   sent (snd (subscribe req sid session logger w))
   = (sent w
      ++ [control_request
            (spec_control_payload "req" (product_id req) (label_list req))
            sid session])%list)
  /\ (action req = UNSUBSCRIBE ->
      sent (snd (subscribe req sid session logger w))
      = (sent w
         ++ [control_request
               (spec_control_payload "rel" (product_id req) (label_list req))
               sid session])%list)
  /\ (action req <> SUBSCRIBE -> action req <> UNSUBSCRIBE ->
      subscribe req sid session logger w
      = (Raise (AttributeError ("Unknown " ++ quoted "Request.action" ++ ".")),
         w)).
Proof using.
  clear utcoffset.
  intros D. repeat split.
  - intros E.
    assert (V : valid_action (action req)) by (left; exact E).
    destruct (network w (subscribe_request req sid session)) as [r|e] eqn:N;
      [destruct (subscribe_responds_run req sid session logger w r V N)
         as (_ & S & _)
      |destruct (subscribe_fails_run req sid session logger w e V N)
         as (_ & S & _)];
      rewrite S; unfold subscribe_request, spec_verb;
      rewrite E, Z.eqb_refl; reflexivity.
  - intros E.
    assert (V : valid_action (action req)) by (right; exact E).
    assert (F : (action req =? SUBSCRIBE) = false)
      by (apply Z.eqb_neq; congruence).
    destruct (network w (subscribe_request req sid session)) as [r|e] eqn:N;
      [destruct (subscribe_responds_run req sid session logger w r V N)
         as (_ & S & _)
      |destruct (subscribe_fails_run req sid session logger w e V N)
         as (_ & S & _)];
      rewrite S; unfold subscribe_request, spec_verb; rewrite F; reflexivity.
  - intros N1 N2. apply subscribe_invalid_run. unfold valid_action. tauto.
Qed.

(** C5.  For a valid action and a transport that answers, [subscribe]
    returns the truth value of [status_code == 200]: [True] exactly for
    status 200 and [False] for every other status, without raising, and
    it logs no record of fatal severity. *)
Theorem subscribe_status (req : SubscriptionRequest) (sid : string)
    (session : option Session) (logger : option Logger) (w : World)
    (r : Response) :
  valid_action (action req) ->
  network w (subscribe_request req sid session) = Responds r ->
  fst (subscribe req sid session logger w) = Return (status_code r =? 200)
  /\ (fst (subscribe req sid session logger w) = Return true
      <-> status_code r = 200)
  /\ (status_code r <> 200 ->
      fst (subscribe req sid session logger w) = Return false)
  /\ (forall rec, In rec (log (snd (subscribe req sid session logger w))) ->
                  lr_level rec = FATAL -> In rec (log w)).
Proof using.
  intros V N.
  destruct (subscribe_responds_run req sid session logger w r V N)
    as (F & _ & L).
  split; [exact F|]. split; [|split].
  - rewrite F. split.
    + intros E. injection E as E. now apply Z.eqb_eq.
    + intros E. now rewrite E.
  - intros E. rewrite F. apply Z.eqb_neq in E. now rewrite E.
  - intros rec I Lv. rewrite L in I. apply in_app_or in I.
    destruct I as [I|I]; [exact I|].
    simpl in I. destruct I as [<-|[<-|[<-|[]]]]; discriminate Lv.
Qed.

(** C9.  With a valid action and no label, [subscribe] still sends its
    POST, and the body is the [controlData] wrapping of a lone [;]. *)
Theorem subscribe_no_labels (req : SubscriptionRequest) (sid : string)
    (session : option Session) (logger : option Logger) (w : World) :
  valid_action (action req) ->
  label_list req = [] ->
  sent (snd (subscribe req sid session logger w))
  = (sent w
     ++ [control_request
           ("{" ++ quoted "controlData" ++ ":" ++ dquote ++ ";" ++ dquote ++ "}")
           sid session])%list.
Proof using.
  intros V E.
  destruct (network w (subscribe_request req sid session)) as [r|e] eqn:N;
    [destruct (subscribe_responds_run req sid session logger w r V N)
       as (_ & S & _)
    |destruct (subscribe_fails_run req sid session logger w e V N)
       as (_ & S & _)];
    rewrite S; unfold subscribe_request, spec_control_payload;
    rewrite E; reflexivity.
Qed.

(** C10.  For an action outside the enum, [subscribe] raises before it
    builds a body, prepares a request, logs or sends: the world after
    the call is the world before it. *)
Theorem subscribe_invalid_no_effect (req : SubscriptionRequest) (sid : string)
    (session : option Session) (logger : option Logger) (w : World) :
  action req <> SUBSCRIBE -> action req <> UNSUBSCRIBE ->
  fst (subscribe req sid session logger w)
  = Raise (AttributeError ("Unknown " ++ quoted "Request.action" ++ "."))
  /\ snd (subscribe req sid session logger w) = w
  /\ sent (snd (subscribe req sid session logger w)) = sent w
  /\ log (snd (subscribe req sid session logger w)) = log w.
Proof using.
  clear utcoffset.
  intros N1 N2.
  rewrite (subscribe_invalid_run req sid session logger w)
    by (unfold valid_action; tauto).
  cbn [fst snd]. auto.
Qed.

(** C6.  When the acquisition response parses to a key/value structure,
    [get_session_id] returns the value under [sessionId] if the key is
    there and [None] if it is not; [None] differs from [False], which is
    what the call returns when the transport raises. *)
Theorem get_session_id_key (user_token : Z) (session : option Session)
    (logger : option Logger) (w : World) (r : Response)
    (items : list (string * obj)) :
  network w (acquisition_request user_token session) = Responds r ->
  json_result r = inr (PyDict items) ->
  (forall v, dict_lookup "sessionId" items = Some v ->
             fst (get_session_id user_token session logger w) = Return v)
  /\ (dict_lookup "sessionId" items = None ->
      fst (get_session_id user_token session logger w) = Return PyNone)
  /\ (forall w' e,
        network w' (acquisition_request user_token session) = Fails e ->
        fst (get_session_id user_token session logger w')
        = Return (PyBool false))
  /\ Return PyNone <> Return (PyBool false).
Proof using.
  intros N J.
  destruct (get_session_id_dict_run user_token session logger w r items N J)
    as (F & _).
  repeat split.
  - intros v L. rewrite F, L. reflexivity.
  - intros L. rewrite F, L. reflexivity.
  - intros w' e N'.
    apply (get_session_id_send_fails_run user_token session logger w' e N').
  - discriminate.
Qed.

(** C4, as amended.  In acquisition and in subscription control an
    exception raised by the send is caught, logged at fatal severity and
    turned into the return value [False]; in polling the send is not
    guarded: the exception reaches the caller and nothing is logged. *)
Theorem transport_error_policy (e : exn) :
  (forall user_token session logger w,
      network w (acquisition_request user_token session) = Fails e ->
      fst (get_session_id user_token session logger w) = Return (PyBool false)
      /\ log (snd (get_session_id user_token session logger w))
         = (log w ++ [ {| lr_logger := or_default logger build_logger;
                          lr_level := FATAL; lr_msg := ArgExn e;
                          lr_args := [] |} ])%list)
  /\ (forall req sid session logger w,
        valid_action (action req) ->
        network w (subscribe_request req sid session) = Fails e ->
        fst (subscribe req sid session logger w) = Return false
        /\ exists info,
            lr_level info = INFO
            /\ log (snd (subscribe req sid session logger w))
               = (log w ++ [ info;
                             {| lr_logger := or_default logger build_logger;
                                lr_level := FATAL; lr_msg := ArgExn e;
                                lr_args := [] |} ])%list)
  /\ (forall sid session logger w,
        network w (poll_request sid session) = Fails e ->
        fst (fetch_data sid session logger w) = Raise e
        /\ log (snd (fetch_data sid session logger w)) = log w).
Proof using.
  split; [|split].
  - intros user_token session logger w N.
    destruct (get_session_id_send_fails_run user_token session logger w e N)
      as (F & _ & L).
    split; assumption.
  - intros req sid session logger w V N.
    destruct (subscribe_fails_run req sid session logger w e V N)
      as (F & _ & L).
    split; [exact F|]. eexists. split; [|exact L]. reflexivity.
  - intros sid session logger w N.
    destruct (fetch_data_send_fails_run sid session logger w e N)
      as (F & _ & L).
    split; assumption.
Qed.

(** C7, as amended.  Subscription control raises exactly when the action
    is outside the enum; polling raises exactly when its send raises or
    the body is the reset literal; acquisition returns, and does not
    raise, when its send raises, when the body does not parse, and when
    the body parses to a key/value structure. *)
Theorem raise_conditions :
  (forall req sid session logger w,
      (exists e, fst (subscribe req sid session logger w) = Raise e)
      <-> ~ valid_action (action req))
  /\ (forall sid session logger w,
        (exists e, fst (fetch_data sid session logger w) = Raise e)
        <-> poll_raises (network w (poll_request sid session)))
  /\ (forall user_token session logger w,
        acquisition_settled (network w (acquisition_request user_token session)) ->
        exists v, fst (get_session_id user_token session logger w) = Return v).
Proof using.
  split; [|split].
  - intros req sid session logger w. split.
    + intros [e E] V.
      destruct (network w (subscribe_request req sid session)) as [r|e'] eqn:N;
        [destruct (subscribe_responds_run req sid session logger w r V N)
           as (F & _)
        |destruct (subscribe_fails_run req sid session logger w e' V N)
           as (F & _)];
        rewrite F in E; discriminate E.
    + intros V. rewrite (subscribe_invalid_run req sid session logger w V).
      eexists. reflexivity.
  - intros sid session logger w. unfold poll_raises.
    destruct (network w (poll_request sid session)) as [r|e'] eqn:N; split.
    + intros [e E].
      destruct (string_dec (text r) session_reset_body) as [T|T]; [exact T|].
      destruct (fetch_data_returns_run sid session logger w r N T) as (F & _).
      rewrite F in E. discriminate E.
    + intros P.
      destruct (fetch_data_reset_run sid session logger w r N P) as (F & _).
      eexists. exact F.
    + intros _. exact I.
    + intros _.
      destruct (fetch_data_send_fails_run sid session logger w e' N) as (F & _).
      eexists. exact F.
  - intros user_token session logger w. unfold acquisition_settled. intros A.
    destruct (network w (acquisition_request user_token session))
      as [r|e] eqn:N.
    + destruct (json_result r) as [e|v] eqn:J.
      * destruct (get_session_id_parse_fails_run
                    user_token session logger w r e N J) as (F & _).
        eexists. exact F.
      * destruct v; try contradiction.
        destruct (get_session_id_dict_run
                    user_token session logger w r items N J) as (F & _).
        eexists. exact F.
    + destruct (get_session_id_send_fails_run user_token session logger w e N)
        as (F & _).
      eexists. exact F.
Qed.

(** C8.  On a successful poll the timestamp of the Raw Response is the
    formatted local time of the instant the transport recorded with the
    response ([response.cookies._now]): it is the same in every world
    that gets this response, whatever its system clock reads, and for an
    instant between the epoch and the year 10000 it has the shape
    [YYYY-MM-DD HH:MM:SS]. *)
Theorem fetch_data_timestamp (sid : string) (session : option Session)
    (logger : option Logger) (w : World) (r : Response) :
  network w (poll_request sid session) = Responds r ->
  text r <> session_reset_body ->
  0 <= cookies_now r + utcoffset (cookies_now r) < year_10000 ->
  exists raw,
    fst (fetch_data sid session logger w) = Return raw
    /\ response_datetime (metadata raw)
       = strftime_Ymd_HMS (localtime (cookies_now r))
    /\ is_Ymd_HMS (response_datetime (metadata raw)) = true
    /\ (forall w',
          network w' (poll_request sid session) = Responds r ->
          exists raw',
            fst (fetch_data sid session logger w') = Return raw'
            /\ response_datetime (metadata raw')
               = response_datetime (metadata raw)).
Proof using.
  intros N T R.
  destruct (fetch_data_returns_run sid session logger w r N T) as (F & _).
  eexists. split; [exact F|]. cbn [metadata response_datetime].
  split; [reflexivity|]. split.
  - unfold localtime. apply strftime_gmtime_shape. exact R.
  - intros w' N'.
    destruct (fetch_data_returns_run sid session logger w' r N' T) as (F' & _).
    eexists. split; [exact F'|]. reflexivity.
Qed.

(** *** Strings and containers *)

Lemma append_assoc (a b c : string) : (a ++ b) ++ c = a ++ b ++ c.
Proof using.
  induction a as [|x a IH]; simpl; [reflexivity | now rewrite IH].
Qed.

Lemma append_nil_r (a : string) : a ++ "" = a.
Proof using.
  induction a as [|x a IH]; simpl; [reflexivity | now rewrite IH].
Qed.

Lemma length_append (a b : string) :
  String.length (a ++ b) = (String.length a + String.length b)%nat.
Proof using.
  induction a as [|x a IH]; simpl; [reflexivity | now rewrite IH].
Qed.

(** A string that stays the same when another is put before or after
    it was given the empty string. *)
Lemma append_same_l (a b : string) : a ++ b = a -> b = "".
Proof using.
  clear utcoffset.
  intros E. apply (f_equal String.length) in E. rewrite length_append in E.
  destruct b; [reflexivity | simpl in E; lia].
Qed.

Lemma append_same_r (a b : string) : b ++ a = a -> b = "".
Proof using.
  clear utcoffset.
  intros E. apply (f_equal String.length) in E. rewrite length_append in E.
  destruct b; [reflexivity | simpl in E; lia].
Qed.

Lemma prefix_iff (s t : string) :
  String.prefix s t = true <-> exists post, t = s ++ post.
Proof using.
  revert t; induction s as [|a s IH]; intros [|b t]; simpl.
  - split; [eexists|]; reflexivity.
  - split; [eexists|]; reflexivity.
  - split; [discriminate | intros [post E]; discriminate E].
  - destruct (ascii_dec a b) as [->|N].
    + rewrite IH. split; intros [post E]; exists post.
      * now rewrite E.
      * now injection E.
    + split; [discriminate | intros [post E]; injection E; congruence].
Qed.

Lemma str_contains_eq (s t : string) :
  str_contains s t
  = if String.prefix s t then true
    else match t with
         | EmptyString => false
         | String _ rest => str_contains s rest
         end.
Proof using. destruct t; reflexivity. Qed.

(** The substring test holds exactly when the needle occurs. *)
Lemma str_contains_iff (s t : string) :
  str_contains s t = true <-> occurs_in s t.
Proof using.
  unfold occurs_in. induction t as [|b t IH]; rewrite str_contains_eq.
  - destruct (String.prefix s "") eqn:P.
    + split; [intros _|reflexivity].
      apply prefix_iff in P. destruct P as [post E].
      exists "", post. exact E.
    + split; [discriminate|]. intros (pre & post & E).
      destruct pre; [|discriminate E]. simpl in E.
      assert (String.prefix s "" = true) by (apply prefix_iff; eauto).
      congruence.
  - destruct (String.prefix s (String b t)) eqn:P.
    + split; [intros _|reflexivity].
      apply prefix_iff in P. destruct P as [post E].
      exists "", post. exact E.
    + rewrite IH. split.
      * intros (pre & post & E). exists (String b pre), post.
        simpl. now rewrite E.
      * intros (pre & post & E). destruct pre as [|c pre].
        -- simpl in E.
           assert (String.prefix s (String b t) = true)
             by (apply prefix_iff; eauto).
           congruence.
        -- simpl in E. injection E as _ E. eauto.
Qed.

(** The element test on a list holds exactly when the str is in it. *)
Lemma existsb_eq_str_iff (k : string) (items : list obj) :
  existsb (eq_str k) items = true <-> In (PyStr k) items.
Proof using.
  rewrite existsb_exists. split.
  - intros (x & I & E). destruct x; try discriminate E.
    simpl in E. apply String.eqb_eq in E. now subst.
  - intros I. exists (PyStr k). split; [exact I|].
    simpl. apply String.eqb_refl.
Qed.

(** The separator after every token, or the join and one separator
    more: the same unless there is no token at all. *)
Lemma join_terminated (sep : string) (tokens : list string) :
  tokens <> [] -> join sep tokens ++ sep = terminated sep tokens.
Proof using.
  unfold join, terminated.
  induction tokens as [|t [|u tokens] IH]; intros N.
  - contradiction.
  - simpl. reflexivity.
  - change (String.concat sep (t :: u :: tokens))
      with (t ++ sep ++ String.concat sep (u :: tokens)).
    change (map (fun x => x ++ sep) (t :: u :: tokens))
      with ((t ++ sep) :: map (fun x => x ++ sep) (u :: tokens)).
    change (String.concat "" ((t ++ sep)
                              :: map (fun x => x ++ sep) (u :: tokens)))
      with ((t ++ sep) ++ ""
            ++ String.concat "" (map (fun x => x ++ sep) (u :: tokens))).
    rewrite <- IH by discriminate. simpl.
    now rewrite !append_assoc.
Qed.

Lemma terminated_app (sep : string) (l1 l2 : list string) :
  terminated sep (l1 ++ l2) = terminated sep l1 ++ terminated sep l2.
Proof using.
  unfold terminated. induction l1 as [|t l1 IH]; [reflexivity|].
  assert (C : forall x l, String.concat "" (x :: l) = x ++ String.concat "" l).
  { intros x [|y l]; simpl; [symmetry; apply append_nil_r | reflexivity]. }
  simpl map. rewrite !C, IH. now rewrite !append_assoc.
Qed.

(** *** The world each operation leaves *)

Ltac same_world :=
  unfold after; cbn [Nat.add];
  rewrite <- ?app_assoc, ?app_nil_r; cbn [app]; reflexivity.

(** Acquisition, however it ends, has sent its one request and logged
    its one record. *)
Lemma get_session_id_world (user_token : Z) (session : option Session)
    (logger : option Logger) (w : World) :
  snd (get_session_id user_token session logger w)
  = after w 0
      [acquisition_record (or_default logger build_logger)
         (network w (acquisition_request user_token session))]
      [acquisition_request user_token session].
Proof using.
  unfold acquisition_record, acquisition_request.
  unfold get_session_id. run_py. cbv [or_default].
  destruct (network w _) as [r|e]; cbn [fst snd log sent];
    [|same_world].
  destruct (json_result r) as [e|v]; cbn [fst snd log sent];
    [same_world|].
  unfold py_in, py_getitem. run_py.
  destruct v; cbn [fst snd]; try same_world.
  - destruct (str_contains "sessionId" s); same_world.
  - destruct (existsb (eq_str "sessionId") items); same_world.
  - destruct (dict_lookup "sessionId" items); same_world.
Qed.

(** The outcome of acquisition on a body that parsed. *)
Lemma get_session_id_parsed_run (user_token : Z) (session : option Session)
    (logger : option Logger) (w : World) (r : Response) (v : obj) :
  network w (acquisition_request user_token session) = Responds r ->
  json_result r = inr v ->
  fst (get_session_id user_token session logger w)
  = match v with
    | PyDict items =>
        match dict_lookup "sessionId" items with
        | Some x => Return x
        | None => Return PyNone
        end
    | PyList items =>
        if existsb (eq_str "sessionId") items
        then Raise (TypeError "list indices must be integers or slices, not str")
        else Return PyNone
    | PyStr s =>
        if str_contains "sessionId" s
        then Raise (TypeError "string indices must be integers")
        else Return PyNone
    | _ => Raise (TypeError "argument is not iterable")
    end.
Proof using.
  intros N J. unfold acquisition_request in *. unfold get_session_id. run_py.
  cbv [or_default] in N. rewrite N, J. cbn [fst snd log sent].
  unfold py_in, py_getitem. run_py.
  destruct v; cbn [fst snd]; try reflexivity.
  - destruct (str_contains "sessionId" s); reflexivity.
  - destruct (existsb (eq_str "sessionId") items); reflexivity.
  - destruct (dict_lookup "sessionId" items); reflexivity.
Qed.

(** Polling, in each of its three endings. *)
Lemma fetch_data_fails_world (sid : string) (session : option Session)
    (logger : option Logger) (w : World) (e : exn) :
  network w (poll_request sid session) = Fails e ->
  fetch_data sid session logger w
  = (Raise e, after w 1 [] [poll_request sid session]).
Proof using.
  intros N. unfold poll_request in *. unfold fetch_data. run_py.
  cbv [or_default] in N. rewrite N. f_equal. same_world.
Qed.

Lemma fetch_data_reset_world (sid : string) (session : option Session)
    (logger : option Logger) (w : World) (r : Response) :
  network w (poll_request sid session) = Responds r ->
  text r = session_reset_body ->
  fetch_data sid session logger w
  = (Raise (BrokenPipeError
              ("A new " ++ quoted "session_id" ++ " is required.")),
     after w 2 [] [poll_request sid session]).
Proof using.
  intros N T. unfold poll_request in *. unfold fetch_data. run_py.
  cbv [or_default] in N. rewrite N. cbn [fst snd log sent].
  rewrite T, String.eqb_refl. f_equal. same_world.
Qed.

Lemma fetch_data_returns_world (sid : string) (session : option Session)
    (logger : option Logger) (w : World) (r : Response) :
  network w (poll_request sid session) = Responds r ->
  text r <> session_reset_body ->
  let raw :=
    {| response_json := text r;
       metadata :=
         {| response_datetime :=
              strftime_Ymd_HMS (localtime (cookies_now r));
            request_duration :=
              clock w (S (clock_reads w)) - clock w (clock_reads w) |} |} in
  fetch_data sid session logger w
  = (Return raw,
     after w 2 (poll_records (or_default logger build_logger) raw)
           [poll_request sid session]).
Proof using.
  intros N T raw. subst raw.
  unfold poll_request, poll_records in *. unfold fetch_data. run_py.
  cbv [or_default] in N. rewrite N. cbn [fst snd log sent].
  apply String.eqb_neq in T. rewrite T. cbn [fst snd log sent].
  f_equal. cbv [or_default]. same_world.
Qed.

(** Subscription control, in its two endings for a valid action. *)
Lemma subscribe_responds_world (req : SubscriptionRequest) (sid : string)
    (session : option Session) (logger : option Logger) (w : World)
    (r : Response) :
  valid_action (action req) ->
  network w (subscribe_request req sid session) = Responds r ->
  let lg := or_default logger build_logger in
  let body := spec_control_payload (spec_verb (action req)) (product_id req)
                                   (label_list req) in
  snd (subscribe req sid session logger w)
  = after w 0
      [ Build_LogRecord lg INFO (ArgStr "subscribe:payload: %s") [ArgStr body];
        Build_LogRecord lg DEBUG (ArgStr "subscribe:response.text: %s")
                        [ArgStr (text r)];
        Build_LogRecord lg DEBUG (ArgStr "subscribe:response.status_code: %s")
                        [ArgInt (status_code r)] ]
      [subscribe_request req sid session].
Proof using.
  intros V N lg body. subst lg body.
  unfold subscribe_request, control_request, spec_control_payload in *.
  unfold subscribe. run_py.
  destruct (spec_verb_cases _ V) as [[E1 E]|[E1 [E2 E]]];
    rewrite E in *; rewrite E1; try rewrite E2; cbn [fst snd];
    rewrite fold_append_token; cbn [app]; cbv [or_default] in N;
    rewrite N; cbn [fst snd log sent]; cbv [or_default]; same_world.
Qed.

Lemma subscribe_fails_world (req : SubscriptionRequest) (sid : string)
    (session : option Session) (logger : option Logger) (w : World)
    (e : exn) :
  valid_action (action req) ->
  network w (subscribe_request req sid session) = Fails e ->
  let lg := or_default logger build_logger in
  let body := spec_control_payload (spec_verb (action req)) (product_id req)
                                   (label_list req) in
  snd (subscribe req sid session logger w)
  = after w 0
      [ Build_LogRecord lg INFO (ArgStr "subscribe:payload: %s") [ArgStr body];
        Build_LogRecord lg FATAL (ArgExn e) [] ]
      [subscribe_request req sid session].
Proof using.
  intros V N lg body. subst lg body.
  unfold subscribe_request, control_request, spec_control_payload in *.
  unfold subscribe. run_py.
  destruct (spec_verb_cases _ V) as [[E1 E]|[E1 [E2 E]]];
    rewrite E in *; rewrite E1; try rewrite E2; cbn [fst snd];
    rewrite fold_append_token; cbn [app]; cbv [or_default] in N;
    rewrite N; cbn [fst snd log sent]; cbv [or_default]; same_world.
Qed.

Lemma valid_action_dec (a : Z) : {valid_action a} + {~ valid_action a}.
Proof using.
  unfold valid_action.
  destruct (Z.eq_dec a SUBSCRIBE); [left; auto|].
  destruct (Z.eq_dec a UNSUBSCRIBE); [left; auto|].
  right. intros [E|E]; contradiction.
Defined.

(** For a valid action [subscribe] returns, having sent its one
    request. *)
Lemma subscribe_valid_world (req : SubscriptionRequest) (sid : string)
    (session : option Session) (logger : option Logger) (w : World) :
  valid_action (action req) ->
  exists b recs,
    subscribe req sid session logger w
    = (Return b, after w 0 recs [subscribe_request req sid session])
    /\ Forall (fun rec => lr_logger rec = or_default logger build_logger) recs
    /\ exists rest,
        recs = Build_LogRecord (or_default logger build_logger) INFO
                 (ArgStr "subscribe:payload: %s")
                 [ArgStr (spec_control_payload (spec_verb (action req))
                            (product_id req) (label_list req))]
               :: rest
        /\ ((exists rec, In rec rest /\ lr_level rec = FATAL)
            <-> exists e,
                network w (subscribe_request req sid session) = Fails e).
Proof using.
  intros V.
  destruct (network w (subscribe_request req sid session)) as [r|e] eqn:N.
  - destruct (subscribe_responds_run req sid session logger w r V N)
      as (F & _).
    pose proof (subscribe_responds_world req sid session logger w r V N) as W.
    cbv zeta in W.
    eexists _, _. split; [|split].
    + rewrite (surjective_pairing (subscribe req sid session logger w)).
      rewrite F, W. reflexivity.
    + repeat constructor.
    + eexists. split; [reflexivity|]. split.
      * intros (rec & I & L). simpl in I.
        destruct I as [<-|[<-|[]]]; discriminate L.
      * intros (e & E). discriminate E.
  - destruct (subscribe_fails_run req sid session logger w e V N) as (F & _).
    pose proof (subscribe_fails_world req sid session logger w e V N) as W.
    cbv zeta in W.
    eexists _, _. split; [|split].
    + rewrite (surjective_pairing (subscribe req sid session logger w)).
      rewrite F, W. reflexivity.
    + repeat constructor.
    + eexists. split; [reflexivity|]. split.
      * intros _. eexists. reflexivity.
      * intros _. eexists. split; [left; reflexivity | reflexivity].
Qed.

(** The body with the last separator counted among the tokens. *)
Lemma spec_control_payload_assoc (verb : string) (pid : Z)
    (labels : list string) :
  spec_control_payload verb pid labels
  = "{" ++ quoted "controlData" ++ ":" ++ dquote
    ++ (join ";" (map (spec_control_token verb pid) labels) ++ ";")
    ++ dquote ++ "}".
Proof using.
  unfold spec_control_payload. now rewrite !append_assoc.
Qed.

(** A label that holds the end of one token and the start of the next
    gives the body of two labels. *)
Lemma spec_control_payload_split (verb : string) (pid : Z)
    (l1 l2 : list string) (x y : string) :
  spec_control_payload verb pid
    (l1 ++ [x ++ ");" ++ verb ++ "(" ++ str_of_int pid ++ "." ++ y] ++ l2)
  = spec_control_payload verb pid (l1 ++ [x; y] ++ l2).
Proof using.
  rewrite !spec_control_payload_assoc.
  rewrite !join_terminated
    by (rewrite map_app; intros E; apply app_eq_nil in E;
        destruct E as [_ E]; discriminate E).
  rewrite !map_app, !terminated_app. do 5 f_equal.
  unfold terminated, spec_control_token. cbn [map String.concat].
  rewrite !append_assoc. reflexivity.
Qed.

(** *** Further properties of the three operations *)

(** X1.  Every call of [get_session_id] hands exactly one request to the
    transport, whatever its outcome: the POST to the session endpoint
    with the version and the user token as parameters and the referrer
    as body. *)
Theorem get_session_id_one_request (user_token : Z) (session : option Session)
    (logger : option Logger) (w : World) :
  sent (snd (get_session_id user_token session logger w))
  = (sent w
     ++ [prepare_request (or_default session (build_session None))
           {| method := "POST";
              url := (Endpoint_URL ++ "/request_session")%string;
              data := Some ("{" ++ quoted "referrer" ++ ":"
                            ++ quoted "https://trader.degiro.nl" ++ "}")%string;
              params := [("version", Endpoint_VERSION);
                         ("userToken", str_of_int user_token)] |}])%list.
Proof using.
  rewrite get_session_id_world. reflexivity.
Qed.

(** X2.  Every call of [get_session_id] logs exactly one record: at
    fatal severity when the send or the parsing raised, at info severity
    otherwise, also when the call then raises on the parsed body. *)
Theorem get_session_id_one_record (user_token : Z) (session : option Session)
    (logger : option Logger) (w : World) :
  exists rec,
    log (snd (get_session_id user_token session logger w))
    = (log w ++ [rec])%list
    /\ lr_level rec
       = if acquisition_failed
              (network w (acquisition_request user_token session))
         then FATAL else INFO.
Proof using.
  rewrite get_session_id_world. eexists. split; [reflexivity|].
  unfold acquisition_record, acquisition_failed.
  destruct (network w _) as [r|e]; [|reflexivity].
  destruct (json_result r); reflexivity.
Qed.

(** X3.  When the body parses to [None], a boolean or a number, the
    membership test raises [TypeError]; it stands after the [try]
    block, so the exception reaches the caller. *)
Theorem get_session_id_not_a_container (user_token : Z)
    (session : option Session) (logger : option Logger) (w : World)
    (r : Response) (v : obj) :
  network w (acquisition_request user_token session) = Responds r ->
  json_result r = inr v ->
  not_a_container v ->
  fst (get_session_id user_token session logger w)
  = Raise (TypeError "argument is not iterable").
Proof using.
  intros N J C.
  rewrite (get_session_id_parsed_run user_token session logger w r v N J).
  destruct v; try contradiction; reflexivity.
Qed.

(** X4.  When the body parses to a list, the call returns [None] unless
    the str [sessionId] is one of its elements; then the subscript
    raises [TypeError]. *)
Theorem get_session_id_list_body (user_token : Z) (session : option Session)
    (logger : option Logger) (w : World) (r : Response) (items : list obj) :
  network w (acquisition_request user_token session) = Responds r ->
  json_result r = inr (PyList items) ->
  (~ In (PyStr "sessionId") items ->
   fst (get_session_id user_token session logger w) = Return PyNone)
  /\ (In (PyStr "sessionId") items ->
      fst (get_session_id user_token session logger w)
      = Raise (TypeError "list indices must be integers or slices, not str")).
Proof using.
  intros N J.
  rewrite (get_session_id_parsed_run user_token session logger w r _ N J).
  pose proof (existsb_eq_str_iff "sessionId" items) as E.
  destruct (existsb (eq_str "sessionId") items); split; intros H.
  - exfalso. apply H. now apply E.
  - reflexivity.
  - reflexivity.
  - apply E in H. discriminate H.
Qed.

(** X5.  When the body parses to a str, the call returns [None] unless
    [sessionId] occurs in it; then the subscript raises [TypeError]. *)
Theorem get_session_id_str_body (user_token : Z) (session : option Session)
    (logger : option Logger) (w : World) (r : Response) (s : string) :
  network w (acquisition_request user_token session) = Responds r ->
  json_result r = inr (PyStr s) ->
  (~ occurs_in "sessionId" s ->
   fst (get_session_id user_token session logger w) = Return PyNone)
  /\ (occurs_in "sessionId" s ->
      fst (get_session_id user_token session logger w)
      = Raise (TypeError "string indices must be integers")).
Proof using.
  intros N J.
  rewrite (get_session_id_parsed_run user_token session logger w r _ N J).
  pose proof (str_contains_iff "sessionId" s) as E.
  destruct (str_contains "sessionId" s); split; intros H.
  - exfalso. apply H. now apply E.
  - reflexivity.
  - reflexivity.
  - apply E in H. discriminate H.
Qed.

(** X6.  The value returned does not tell a key holding [False] from a
    transport failure, nor a key holding [None] from a missing key. *)
Theorem get_session_id_value_ambiguity (user_token : Z)
    (session : option Session) (logger : option Logger) (w : World)
    (r : Response) (items : list (string * obj)) :
  network w (acquisition_request user_token session) = Responds r ->
  json_result r = inr (PyDict items) ->
  (dict_lookup "sessionId" items = Some (PyBool false) ->
   forall w' e,
     network w' (acquisition_request user_token session) = Fails e ->
     fst (get_session_id user_token session logger w)
     = fst (get_session_id user_token session logger w'))
  /\ (dict_lookup "sessionId" items = Some PyNone ->
      forall w' r' items',
        network w' (acquisition_request user_token session) = Responds r' ->
        json_result r' = inr (PyDict items') ->
        dict_lookup "sessionId" items' = None ->
        fst (get_session_id user_token session logger w)
        = fst (get_session_id user_token session logger w')).
Proof using.
  intros N J.
  rewrite (get_session_id_parsed_run user_token session logger w r _ N J).
  split; intros L; rewrite L.
  - intros w' e N'.
    destruct (get_session_id_send_fails_run user_token session logger w' e N')
      as (F & _).
    now rewrite F.
  - intros w' r' items' N' J' L'.
    rewrite (get_session_id_parsed_run user_token session logger w' r' _ N' J').
    now rewrite L'.
Qed.

(** X7.  Every call of [fetch_data] hands exactly one request to the
    transport, whatever its outcome: the GET to the endpoint followed by
    the session identifier, without body or parameters. *)
Theorem fetch_data_one_request (sid : string) (session : option Session)
    (logger : option Logger) (w : World) :
  sent (snd (fetch_data sid session logger w))
  = (sent w
     ++ [prepare_request (or_default session (build_session None))
           {| method := "GET"; url := (Endpoint_URL ++ "/" ++ sid)%string;
              data := None; params := [] |}])%list.
Proof using.
  destruct (network w (poll_request sid session)) as [r|e] eqn:N.
  - destruct (string_dec (text r) session_reset_body) as [T|T].
    + now rewrite (fetch_data_reset_world sid session logger w r N T).
    + now rewrite (fetch_data_returns_world sid session logger w r N T).
  - now rewrite (fetch_data_fails_world sid session logger w e N).
Qed.

(** X8.  A poll that raises, on the reset literal or on a transport
    error, logs nothing. *)
Theorem fetch_data_raise_logs_nothing (sid : string) (session : option Session)
    (logger : option Logger) (w : World) (e : exn) :
  fst (fetch_data sid session logger w) = Raise e ->
  log (snd (fetch_data sid session logger w)) = log w.
Proof using.
  destruct (network w (poll_request sid session)) as [r|e'] eqn:N.
  - destruct (string_dec (text r) session_reset_body) as [T|T].
    + rewrite (fetch_data_reset_world sid session logger w r N T).
      intros _. cbn [snd after log]. apply app_nil_r.
    + rewrite (fetch_data_returns_world sid session logger w r N T).
      discriminate.
  - rewrite (fetch_data_fails_world sid session logger w e' N).
    intros _. cbn [snd after log]. apply app_nil_r.
Qed.

(** X9.  A poll that returns logs exactly three records, at debug
    severity, carrying the three fields of the Raw Response it returns:
    the body, the timestamp and the duration. *)
Theorem fetch_data_return_logs_fields (sid : string) (session : option Session)
    (logger : option Logger) (w : World) (raw : RawResponse) :
  fst (fetch_data sid session logger w) = Return raw ->
  log (snd (fetch_data sid session logger w))
  = (log w ++ poll_records (or_default logger build_logger) raw)%list.
Proof using.
  destruct (network w (poll_request sid session)) as [r|e'] eqn:N.
  - destruct (string_dec (text r) session_reset_body) as [T|T].
    + rewrite (fetch_data_reset_world sid session logger w r N T).
      discriminate.
    + rewrite (fetch_data_returns_world sid session logger w r N T).
      cbn [fst snd after log]. intros E. injection E as <-. reflexivity.
  - rewrite (fetch_data_fails_world sid session logger w e' N).
    discriminate.
Qed.


(** X11.  The comparison with the reset literal is exact: a body that
    only begins or only ends with the literal is returned like any
    other. *)
Theorem fetch_data_exact_match (sid : string) (session : option Session)
    (logger : option Logger) (w : World) (r : Response) (s : string) :
  network w (poll_request sid session) = Responds r ->
  s <> "" ->
  text r = session_reset_body ++ s \/ text r = s ++ session_reset_body ->
  exists raw,
    fst (fetch_data sid session logger w) = Return raw
    /\ response_json raw = text r.
Proof using.
  intros N S B.
  assert (T : text r <> session_reset_body).
  { intros E. apply S. destruct B as [B|B]; rewrite B in E.
    - exact (append_same_l _ _ E).
    - exact (append_same_r _ _ E). }
  rewrite (fetch_data_returns_world sid session logger w r N T).
  eexists. split; reflexivity.
Qed.

(** X12.  Two calls of [subscribe] in a row with the same valid request
    send two requests with the same body: nothing is remembered between
    calls and a repeated subscription is not filtered out. *)
Theorem subscribe_twice (req : SubscriptionRequest) (sid : string)
    (session : option Session) (logger : option Logger) (w : World) :
  valid_action (action req) ->
  sent (snd ((subscribe req sid session logger ;;
              subscribe req sid session logger) w))
  = (sent w ++ [subscribe_request req sid session;
                subscribe_request req sid session])%list.
Proof using.
  intros V. unfold bind.
  destruct (subscribe_valid_world req sid session logger w V)
    as (b & recs & R & _).
  rewrite R.
  destruct (subscribe_valid_world req sid session logger
              (after w 0 recs [subscribe_request req sid session]) V)
    as (b' & recs' & R' & _).
  rewrite R'. cbn [snd after sent]. now rewrite <- app_assoc.
Qed.

(** X13.  With at least one label the body holds every token followed by
    its own [;]: the trailing [;] closes the last token.  (Without a
    label the body still holds one [;].) *)
Theorem subscribe_tokens_terminated (req : SubscriptionRequest) (sid : string)
    (session : option Session) (logger : option Logger) (w : World) :
  valid_action (action req) ->
  label_list req <> [] ->
  sent (snd (subscribe req sid session logger w))
  = (sent w
     ++ [control_request
           ("{" ++ quoted "controlData" ++ ":" ++ dquote
            ++ terminated ";"
                 (map (spec_control_token (spec_verb (action req))
                                          (product_id req))
                      (label_list req))
            ++ dquote ++ "}")%string
           sid session])%list.
Proof using.
  intros V L.
  destruct (subscribe_valid_world req sid session logger w V)
    as (b & recs & R & _).
  rewrite R. cbn [snd after sent]. unfold subscribe_request.
  rewrite spec_control_payload_assoc, join_terminated; [reflexivity|].
  destruct (label_list req); [contradiction | discriminate].
Qed.

(** X14.  Labels are copied into the body as they are.  A label that
    holds [);], the verb, [(], the product and [.] is sent as the body
    of two labels: the body does not determine the label list. *)
Theorem subscribe_labels_not_escaped (a pid : Z) (l1 l2 : list string)
    (x y sid : string) (session : option Session) (logger : option Logger)
    (w : World) :
  valid_action a ->
  sent (snd (subscribe
               {| action := a; product_id := pid;
                  label_list :=
                    l1 ++ [x ++ ");" ++ spec_verb a ++ "("
                           ++ str_of_int pid ++ "." ++ y] ++ l2 |}
               sid session logger w))
  = sent (snd (subscribe
                 {| action := a; product_id := pid;
                    label_list := l1 ++ [x; y] ++ l2 |}
                 sid session logger w)).
Proof using.
  intros V.
  destruct (subscribe_valid_world
              {| action := a; product_id := pid;
                 label_list :=
                   l1 ++ [x ++ ");" ++ spec_verb a ++ "("
                          ++ str_of_int pid ++ "." ++ y] ++ l2 |}
              sid session logger w V) as (b & recs & R & _).
  destruct (subscribe_valid_world
              {| action := a; product_id := pid;
                 label_list := l1 ++ [x; y] ++ l2 |}
              sid session logger w V) as (b' & recs' & R' & _).
  rewrite R, R'. cbn [snd after sent]. unfold subscribe_request.
  cbn [action product_id label_list].
  now rewrite spec_control_payload_split.
Qed.

(** X15.  For a valid action, [subscribe] logs a record of fatal
    severity exactly when the transport raised: the log, not the value
    returned, tells a transport failure from an answer other than
    200. *)
Theorem subscribe_fatal_iff_transport_failure (req : SubscriptionRequest)
    (sid : string) (session : option Session) (logger : option Logger)
    (w : World) :
  valid_action (action req) ->
  exists recs,
    log (snd (subscribe req sid session logger w)) = (log w ++ recs)%list
    /\ ((exists rec, In rec recs /\ lr_level rec = FATAL)
        <-> exists e, network w (subscribe_request req sid session) = Fails e).
Proof using.
  intros V.
  destruct (subscribe_valid_world req sid session logger w V)
    as (b & recs & R & _ & rest & E & F).
  exists recs. rewrite R. split; [reflexivity|].
  rewrite <- F, E. split; intros (rec & I & L); exists rec.
  - destruct I as [<-|I]; [discriminate L | auto].
  - split; [right; exact I | exact L].
Qed.

(** X16.  For a valid action, the first record [subscribe] logs is at
    info severity and carries the very body of the request it sends. *)
Theorem subscribe_logs_body_sent (req : SubscriptionRequest) (sid : string)
    (session : option Session) (logger : option Logger) (w : World) :
  valid_action (action req) ->
  exists body rest,
    sent (snd (subscribe req sid session logger w))
    = (sent w ++ [control_request body sid session])%list
    /\ log (snd (subscribe req sid session logger w))
       = (log w
          ++ Build_LogRecord (or_default logger build_logger) INFO
               (ArgStr "subscribe:payload: %s") [ArgStr body]
             :: rest)%list.
Proof using.
  intros V.
  destruct (subscribe_valid_world req sid session logger w V)
    as (b & recs & R & _ & rest & E & _).
  eexists _, rest. rewrite R. cbn [snd after sent log]. rewrite E.
  split; reflexivity.
Qed.

(** X17.  Every record an operation logs goes to the logger the caller
    supplied, never to the logger of the module. *)
Theorem operations_log_to_supplied_logger (lg : Logger) (w : World) :
  (forall user_token session rec,
      In rec (log (snd (get_session_id user_token session (Some lg) w))) ->
      In rec (log w) \/ lr_logger rec = lg)
  /\ (forall sid session rec,
        In rec (log (snd (fetch_data sid session (Some lg) w))) ->
        In rec (log w) \/ lr_logger rec = lg)
  /\ (forall req sid session rec,
        In rec (log (snd (subscribe req sid session (Some lg) w))) ->
        In rec (log w) \/ lr_logger rec = lg).
Proof using.
  split; [|split].
  - intros user_token session rec.
    rewrite get_session_id_world. cbn [after log]. intros I.
    apply in_app_or in I. destruct I as [I|[<-|[]]]; [left; exact I|right].
    unfold acquisition_record.
    destruct (network w _) as [r|e]; [|reflexivity].
    destruct (json_result r); reflexivity.
  - intros sid session rec.
    destruct (network w (poll_request sid session)) as [r|e] eqn:N.
    + destruct (string_dec (text r) session_reset_body) as [T|T].
      * rewrite (fetch_data_reset_world sid session (Some lg) w r N T).
        cbn [snd after log]. rewrite app_nil_r. auto.
      * rewrite (fetch_data_returns_world sid session (Some lg) w r N T).
        cbn [snd after log]. intros I. apply in_app_or in I.
        destruct I as [I|I]; [left; exact I|right].
        simpl in I. destruct I as [<-|[<-|[<-|[]]]]; reflexivity.
    + rewrite (fetch_data_fails_world sid session (Some lg) w e N).
      cbn [snd after log]. rewrite app_nil_r. auto.
  - intros req sid session rec.
    destruct (valid_action_dec (action req)) as [V|V].
    + destruct (subscribe_valid_world req sid session (Some lg) w V)
        as (b & recs & R & F & _).
      rewrite R. cbn [snd after log]. intros I. apply in_app_or in I.
      destruct I as [I|I]; [left; exact I|right].
      rewrite Forall_forall in F. exact (F rec I).
    + rewrite (subscribe_invalid_run req sid session (Some lg) w V).
      cbn [snd]. auto.
Qed.

(** X18.  Every request an operation sends through a session the caller
    supplied carries the headers of that session as they are. *)
Theorem operations_use_supplied_session (s : Session) (w : World) :
  (forall user_token logger p,
      In p (sent (snd (get_session_id user_token (Some s) logger w))) ->
      In p (sent w) \/ p_headers p = headers s)
  /\ (forall sid logger p,
        In p (sent (snd (fetch_data sid (Some s) logger w))) ->
        In p (sent w) \/ p_headers p = headers s)
  /\ (forall req sid logger p,
        In p (sent (snd (subscribe req sid (Some s) logger w))) ->
        In p (sent w) \/ p_headers p = headers s).
Proof using.
  split; [|split].
  - intros user_token logger p.
    rewrite get_session_id_world. cbn [after sent]. intros I.
    apply in_app_or in I. destruct I as [I|[<-|[]]]; [left; exact I|right].
    reflexivity.
  - intros sid logger p.
    destruct (network w (poll_request sid (Some s))) as [r|e] eqn:N;
      [destruct (string_dec (text r) session_reset_body) as [T|T];
       [rewrite (fetch_data_reset_world sid (Some s) logger w r N T)
       |rewrite (fetch_data_returns_world sid (Some s) logger w r N T)]
      |rewrite (fetch_data_fails_world sid (Some s) logger w e N)];
      cbn [snd after sent]; intros I; apply in_app_or in I;
      (destruct I as [I|[<-|[]]]; [left; exact I|right; reflexivity]).
  - intros req sid logger p.
    destruct (valid_action_dec (action req)) as [V|V].
    + destruct (subscribe_valid_world req sid (Some s) logger w V)
        as (b & recs & R & _).
      rewrite R. cbn [snd after sent]. intros I. apply in_app_or in I.
      destruct I as [I|[<-|[]]]; [left; exact I|right; reflexivity].
    + rewrite (subscribe_invalid_run req sid (Some s) logger w V).
      cbn [snd]. auto.
Qed.

End Utilities.

(** ** Concrete runs *)

(** The reset literal, character by character:
    bracket, brace, quote, m, quote, colon, quote, s, r, quote, brace,
    bracket. *)
Lemma session_reset_body_codes :
  map nat_of_ascii (list_ascii_of_string session_reset_body)
  = [91; 123; 34; 109; 34; 58; 34; 115; 114; 34; 125; 93]%nat.
Proof. reflexivity. Qed.

(** Known instants: the epoch, the leap day of 2000, the last second of
    February 2100, which has no leap day, and the last second before
    the year 10000. *)
Lemma strftime_known_instants :
  map (fun t => strftime_Ymd_HMS (gmtime t))
      [0; 951782400; 4107542399; 4107542400; 253402300799]
  = ["1970-01-01 00:00:00"; "2000-02-29 00:00:00"; "2100-02-28 23:59:59";
     "2100-03-01 00:00:00"; "9999-12-31 23:59:59"].
Proof. vm_compute. reflexivity. Qed.

(** C1 at three bodies: the reset literal raises, a body of updates and
    the empty body come back verbatim. *)
Lemma fetch_data_session_reset_witness :
  fst (fetch_data demo_url demo_headers [] demo_offset "sid" None None
         (world_of (answering
            (response_of session_reset_body 200 (inl (JSONDecodeError "")) 0))))
  = Raise (BrokenPipeError ("A new " ++ quoted "session_id" ++ " is required."))
  /\ (exists raw,
        fst (fetch_data demo_url demo_headers [] demo_offset "sid" None None
               (world_of (answering
                  (response_of demo_updates 200 (inl (JSONDecodeError "")) 0))))
        = Return raw
        /\ response_json raw = demo_updates)
  /\ (exists raw,
        fst (fetch_data demo_url demo_headers [] demo_offset "sid" None None
               (world_of (answering
                  (response_of "" 200 (inl (JSONDecodeError "")) 0))))
        = Return raw
        /\ response_json raw = "").
Proof.
  split; [|split].
  - apply (fetch_data_session_reset demo_url demo_headers [] demo_offset
             "sid" None None
             (world_of (answering
                (response_of session_reset_body 200
                             (inl (JSONDecodeError "")) 0)))
             _ eq_refl).
    reflexivity.
  - apply (fetch_data_session_reset demo_url demo_headers [] demo_offset
             "sid" None None
             (world_of (answering
                (response_of demo_updates 200 (inl (JSONDecodeError "")) 0)))
             _ eq_refl).
    vm_compute. discriminate.
  - apply (fetch_data_session_reset demo_url demo_headers [] demo_offset
             "sid" None None
             (world_of (answering
                (response_of "" 200 (inl (JSONDecodeError "")) 0)))
             _ eq_refl).
    vm_compute. discriminate.
Defined.

(** C2 at the request of the specification: SUBSCRIBE, product
    360148977, labels B then A. *)
Lemma subscribe_payload_witness :
  sent (snd (subscribe demo_url demo_headers [] 0 1
               {| action := 0; product_id := 360148977;
                  label_list := ["B"; "A"] |}
               "sid" None None
               (world_of (answering (response_of "" 200 (inr PyNone) 0)))))
  = [control_request demo_url demo_headers []
       ("{" ++ quoted "controlData" ++ ":" ++ dquote
        ++ "req(360148977.B);req(360148977.A);" ++ dquote ++ "}")
       "sid" None].
Proof.
  apply (subscribe_payload demo_url demo_headers [] 0 1
           {| action := 0; product_id := 360148977; label_list := ["B"; "A"] |}
           "sid" None None
           (world_of (answering (response_of "" 200 (inr PyNone) 0)))).
  left. reflexivity.
Defined.

(** C3 with the enum numbers 0 and 1: action 0 gives [req], action 1
    gives [rel], action 7 raises and changes nothing. *)
Lemma subscribe_verb_witness :
  sent (snd (subscribe demo_url demo_headers [] 0 1
               {| action := 0; product_id := 5; label_list := ["LastPrice"] |}
               "sid" None None (world_of (failing (Timeout "")))))
  = [control_request demo_url demo_headers []
       ("{" ++ quoted "controlData" ++ ":" ++ dquote
        ++ "req(5.LastPrice);" ++ dquote ++ "}") "sid" None]
  /\ sent (snd (subscribe demo_url demo_headers [] 0 1
                  {| action := 1; product_id := 5; label_list := ["LastPrice"] |}
                  "sid" None None (world_of (failing (Timeout "")))))
     = [control_request demo_url demo_headers []
          ("{" ++ quoted "controlData" ++ ":" ++ dquote
           ++ "rel(5.LastPrice);" ++ dquote ++ "}") "sid" None]
  /\ subscribe demo_url demo_headers [] 0 1
       {| action := 7; product_id := 5; label_list := ["LastPrice"] |}
       "sid" None None (world_of (failing (Timeout "")))
     = (Raise (AttributeError ("Unknown " ++ quoted "Request.action" ++ ".")),
        world_of (failing (Timeout ""))).
Proof.
  assert (D : 0 <> 1) by lia.
  split; [|split].
  - apply (proj1 (subscribe_verb demo_url demo_headers [] 0 1
                    {| action := 0; product_id := 5;
                       label_list := ["LastPrice"] |}
                    "sid" None None (world_of (failing (Timeout ""))) D)).
    reflexivity.
  - apply (proj1 (proj2 (subscribe_verb demo_url demo_headers [] 0 1
                    {| action := 1; product_id := 5;
                       label_list := ["LastPrice"] |}
                    "sid" None None (world_of (failing (Timeout ""))) D))).
    reflexivity.
  - apply (proj2 (proj2 (subscribe_verb demo_url demo_headers [] 0 1
                    {| action := 7; product_id := 5;
                       label_list := ["LastPrice"] |}
                    "sid" None None (world_of (failing (Timeout ""))) D)));
      simpl; lia.
Defined.

(** C5 at status 200 and at status 404. *)
Lemma subscribe_status_witness :
  fst (subscribe demo_url demo_headers [] 0 1
         {| action := 0; product_id := 5; label_list := ["LastPrice"] |}
         "sid" None None
         (world_of (answering (response_of "" 200 (inr PyNone) 0))))
  = Return true
  /\ fst (subscribe demo_url demo_headers [] 0 1
            {| action := 0; product_id := 5; label_list := ["LastPrice"] |}
            "sid" None None
            (world_of (answering (response_of "" 404 (inr PyNone) 0))))
     = Return false.
Proof.
  split.
  - apply (proj1 (subscribe_status demo_url demo_headers [] 0 1
                    {| action := 0; product_id := 5;
                       label_list := ["LastPrice"] |}
                    "sid" None None
                    (world_of (answering (response_of "" 200 (inr PyNone) 0)))
                    (response_of "" 200 (inr PyNone) 0)
                    (or_introl eq_refl) eq_refl)).
  - apply (proj1 (subscribe_status demo_url demo_headers [] 0 1
                    {| action := 0; product_id := 5;
                       label_list := ["LastPrice"] |}
                    "sid" None None
                    (world_of (answering (response_of "" 404 (inr PyNone) 0)))
                    (response_of "" 404 (inr PyNone) 0)
                    (or_introl eq_refl) eq_refl)).
Defined.

(** C9 at an unsubscription without labels. *)
Lemma subscribe_no_labels_witness :
  sent (snd (subscribe demo_url demo_headers [] 0 1
               {| action := 1; product_id := 5; label_list := [] |}
               "sid" None None
               (world_of (answering (response_of "" 200 (inr PyNone) 0)))))
  = [control_request demo_url demo_headers []
       ("{" ++ quoted "controlData" ++ ":" ++ dquote ++ ";" ++ dquote ++ "}")
       "sid" None].
Proof.
  apply (subscribe_no_labels demo_url demo_headers [] 0 1
           {| action := 1; product_id := 5; label_list := [] |}
           "sid" None None
           (world_of (answering (response_of "" 200 (inr PyNone) 0)))).
  - right. reflexivity.
  - reflexivity.
Defined.

(** C10 at the action number 7. *)
Lemma subscribe_invalid_no_effect_witness :
  fst (subscribe demo_url demo_headers [] 0 1
         {| action := 7; product_id := 5; label_list := ["LastPrice"] |}
         "sid" None None
         (world_of (answering (response_of "" 200 (inr PyNone) 0))))
  = Raise (AttributeError ("Unknown " ++ quoted "Request.action" ++ "."))
  /\ sent (snd (subscribe demo_url demo_headers [] 0 1
                  {| action := 7; product_id := 5;
                     label_list := ["LastPrice"] |}
                  "sid" None None
                  (world_of (answering (response_of "" 200 (inr PyNone) 0)))))
     = [].
Proof.
  assert (N0 : 7 <> 0) by lia.
  assert (N1 : 7 <> 1) by lia.
  pose proof (subscribe_invalid_no_effect demo_url demo_headers [] 0 1
                {| action := 7; product_id := 5; label_list := ["LastPrice"] |}
                "sid" None None
                (world_of (answering (response_of "" 200 (inr PyNone) 0)))
                N0 N1) as (F & _ & S & _).
  split; [exact F | exact S].
Defined.

(** C6 at the body with [sessionId] X and at a body without the key. *)
Lemma get_session_id_key_witness :
  fst (get_session_id demo_url demo_version demo_headers [] 42 None None
         (world_of (answering
            (response_of "" 200
               (inr (PyDict [("sessionId", PyStr "X")])) 0))))
  = Return (PyStr "X")
  /\ fst (get_session_id demo_url demo_version demo_headers [] 42 None None
            (world_of (answering
               (response_of "" 200
                  (inr (PyDict [("error", PyStr "denied")])) 0))))
     = Return PyNone.
Proof.
  split.
  - apply (proj1 (get_session_id_key demo_url demo_version demo_headers []
                    42 None None
                    (world_of (answering
                       (response_of "" 200
                          (inr (PyDict [("sessionId", PyStr "X")])) 0)))
                    _ _ eq_refl eq_refl)).
    reflexivity.
  - apply (proj1 (proj2 (get_session_id_key demo_url demo_version demo_headers
                    [] 42 None None
                    (world_of (answering
                       (response_of "" 200
                          (inr (PyDict [("error", PyStr "denied")])) 0)))
                    _ _ eq_refl eq_refl))).
    reflexivity.
Defined.

(** C4, the claim as stated fails: a poll whose send raises ends with
    that exception, not with a value. *)
Lemma fetch_data_propagates_transport_error :
  fst (fetch_data demo_url demo_headers [] demo_offset "sid" None None
         (world_of (failing (ConnectionError "unreachable"))))
  = Raise (ConnectionError "unreachable")
  /\ forall raw,
       fst (fetch_data demo_url demo_headers [] demo_offset "sid" None None
              (world_of (failing (ConnectionError "unreachable"))))
       <> Return raw.
Proof.
  split; [reflexivity | intros raw; discriminate].
Qed.

(** C4, as amended, at a transport that cannot connect. *)
Lemma transport_error_policy_witness :
  fst (get_session_id demo_url demo_version demo_headers [] 42 None None
         (world_of (failing (ConnectionError "unreachable"))))
  = Return (PyBool false)
  /\ fst (subscribe demo_url demo_headers [] 0 1
            {| action := 0; product_id := 5; label_list := ["LastPrice"] |}
            "sid" None None
            (world_of (failing (ConnectionError "unreachable"))))
     = Return false
  /\ fst (fetch_data demo_url demo_headers [] demo_offset "sid" None None
            (world_of (failing (ConnectionError "unreachable"))))
     = Raise (ConnectionError "unreachable").
Proof.
  pose proof (transport_error_policy demo_url demo_version demo_headers []
                0 1 demo_offset (ConnectionError "unreachable"))
    as (A & S & P).
  split; [|split].
  - apply (proj1 (A 42 None None
                    (world_of (failing (ConnectionError "unreachable")))
                    eq_refl)).
  - apply (proj1 (S {| action := 0; product_id := 5;
                       label_list := ["LastPrice"] |}
                    "sid" None None
                    (world_of (failing (ConnectionError "unreachable")))
                    (or_introl eq_refl) eq_refl)).
  - apply (proj1 (P "sid" None None
                    (world_of (failing (ConnectionError "unreachable")))
                    eq_refl)).
Defined.

(** C7, the claim as stated fails twice: a poll that meets the reset
    literal raises, which is neither of the two cases the claim allows,
    and an acquisition whose body does not parse returns [False] where
    the claim has the error propagate. *)
Lemma raise_conditions_counterexample :
  fst (fetch_data demo_url demo_headers [] demo_offset "sid" None None
         (world_of (answering
            (response_of session_reset_body 200 (inl (JSONDecodeError "")) 0))))
  = Raise (BrokenPipeError ("A new " ++ quoted "session_id" ++ " is required."))
  /\ fst (get_session_id demo_url demo_version demo_headers [] 42 None None
            (world_of (answering
               (response_of "<html>" 200
                  (inl (JSONDecodeError "Expecting value")) 0))))
     = Return (PyBool false).
Proof.
  split; reflexivity.
Qed.

(** C7, as amended, at an invalid action, at the reset literal and at a
    body that does not parse. *)
Lemma raise_conditions_witness :
  (exists e,
      fst (subscribe demo_url demo_headers [] 0 1
             {| action := 7; product_id := 5; label_list := [] |}
             "sid" None None (world_of (failing (Timeout ""))))
      = Raise e)
  /\ (exists e,
        fst (fetch_data demo_url demo_headers [] demo_offset "sid" None None
               (world_of (answering
                  (response_of session_reset_body 200
                     (inl (JSONDecodeError "")) 0))))
        = Raise e)
  /\ (exists v,
        fst (get_session_id demo_url demo_version demo_headers [] 42 None None
               (world_of (answering
                  (response_of "<html>" 200
                     (inl (JSONDecodeError "Expecting value")) 0))))
        = Return v).
Proof.
  pose proof (raise_conditions demo_url demo_version demo_headers [] 0 1
                demo_offset) as (S & P & A).
  split; [|split].
  - apply (proj2 (S {| action := 7; product_id := 5; label_list := [] |}
                    "sid" None None (world_of (failing (Timeout ""))))).
    unfold valid_action. simpl. lia.
  - apply (proj2 (P "sid" None None
                    (world_of (answering
                       (response_of session_reset_body 200
                          (inl (JSONDecodeError "")) 0))))).
    reflexivity.
  - apply (A 42 None None
             (world_of (answering
                (response_of "<html>" 200
                   (inl (JSONDecodeError "Expecting value")) 0)))).
    exact I.
Defined.

(** C8 at a response received at 1604455321, that is 2020-11-04
    02:02:01 UTC, with local time one hour ahead. *)
Lemma fetch_data_timestamp_witness :
  exists raw,
    fst (fetch_data demo_url demo_headers [] demo_offset "sid" None None
           (world_of (answering
              (response_of demo_updates 200 (inl (JSONDecodeError ""))
                           1604455321))))
    = Return raw
    /\ response_datetime (metadata raw) = "2020-11-04 03:02:01"
    /\ is_Ymd_HMS (response_datetime (metadata raw)) = true.
Proof.
  assert (T : demo_updates <> session_reset_body)
    by (vm_compute; discriminate).
  assert (R : 0 <= 1604455321 + demo_offset 1604455321 < year_10000)
    by (vm_compute; split; [discriminate | reflexivity]).
  destruct (fetch_data_timestamp demo_url demo_headers [] demo_offset
              "sid" None None
              (world_of (answering
                 (response_of demo_updates 200 (inl (JSONDecodeError ""))
                              1604455321)))
              _ eq_refl T R)
    as (raw & F & D & S & _).
  exists raw. split; [exact F|]. split; [|exact S].
  rewrite D. reflexivity.
Defined.

(** X3 at the body [5]. *)
Lemma get_session_id_not_a_container_witness :
  fst (get_session_id demo_url demo_version demo_headers [] 42 None None
         (world_of (answering (response_of "5" 200 (inr (PyInt 5)) 0))))
  = Raise (TypeError "argument is not iterable").
Proof.
  apply (get_session_id_not_a_container demo_url demo_version demo_headers []
           42 None None
           (world_of (answering (response_of "5" 200 (inr (PyInt 5)) 0)))
           _ (PyInt 5) eq_refl eq_refl I).
Defined.

(** X4 at a list of one other str and at a list holding [sessionId]. *)
Lemma get_session_id_list_body_witness :
  fst (get_session_id demo_url demo_version demo_headers [] 42 None None
         (world_of (answering
            (response_of "" 200 (inr (PyList [PyStr "error"])) 0))))
  = Return PyNone
  /\ fst (get_session_id demo_url demo_version demo_headers [] 42 None None
            (world_of (answering
               (response_of "" 200 (inr (PyList [PyStr "sessionId"])) 0))))
     = Raise (TypeError "list indices must be integers or slices, not str").
Proof.
  split.
  - apply (proj1 (get_session_id_list_body demo_url demo_version demo_headers
                    [] 42 None None
                    (world_of (answering
                       (response_of "" 200 (inr (PyList [PyStr "error"])) 0)))
                    _ [PyStr "error"] eq_refl eq_refl)).
    simpl. intros [E|[]]. discriminate E.
  - apply (proj2 (get_session_id_list_body demo_url demo_version demo_headers
                    [] 42 None None
                    (world_of (answering
                       (response_of "" 200
                          (inr (PyList [PyStr "sessionId"])) 0)))
                    _ [PyStr "sessionId"] eq_refl eq_refl)).
    simpl. left. reflexivity.
Defined.

(** X5 at a str without and at a str with [sessionId] inside. *)
Lemma get_session_id_str_body_witness :
  fst (get_session_id demo_url demo_version demo_headers [] 42 None None
         (world_of (answering
            (response_of "" 200 (inr (PyStr "denied")) 0))))
  = Return PyNone
  /\ fst (get_session_id demo_url demo_version demo_headers [] 42 None None
            (world_of (answering
               (response_of "" 200 (inr (PyStr "no sessionId given")) 0))))
     = Raise (TypeError "string indices must be integers").
Proof.
  split.
  - apply (proj1 (get_session_id_str_body demo_url demo_version demo_headers
                    [] 42 None None
                    (world_of (answering
                       (response_of "" 200 (inr (PyStr "denied")) 0)))
                    _ "denied" eq_refl eq_refl)).
    intros H. apply str_contains_iff in H. vm_compute in H. discriminate H.
  - apply (proj2 (get_session_id_str_body demo_url demo_version demo_headers
                    [] 42 None None
                    (world_of (answering
                       (response_of "" 200
                          (inr (PyStr "no sessionId given")) 0)))
                    _ "no sessionId given" eq_refl eq_refl)).
    exists "no ", " given". reflexivity.
Defined.

(** X6 at a body whose [sessionId] is [False], against a transport
    that cannot connect. *)
Lemma get_session_id_value_ambiguity_witness :
  fst (get_session_id demo_url demo_version demo_headers [] 42 None None
         (world_of (answering
            (response_of "" 200
               (inr (PyDict [("sessionId", PyBool false)])) 0))))
  = fst (get_session_id demo_url demo_version demo_headers [] 42 None None
           (world_of (failing (ConnectionError "unreachable")))).
Proof.
  apply (proj1 (get_session_id_value_ambiguity demo_url demo_version
                  demo_headers [] 42 None None
                  (world_of (answering
                     (response_of "" 200
                        (inr (PyDict [("sessionId", PyBool false)])) 0)))
                  _ [("sessionId", PyBool false)] eq_refl eq_refl)
               eq_refl
               (world_of (failing (ConnectionError "unreachable")))
               (ConnectionError "unreachable") eq_refl).
Defined.

(** X8 at the reset literal. *)
Lemma fetch_data_raise_logs_nothing_witness :
  log (snd (fetch_data demo_url demo_headers [] demo_offset "sid" None None
              (world_of (answering
                 (response_of session_reset_body 200
                    (inl (JSONDecodeError "")) 0)))))
  = [].
Proof.
  apply (fetch_data_raise_logs_nothing demo_url demo_headers [] demo_offset
           "sid" None None
           (world_of (answering
              (response_of session_reset_body 200
                 (inl (JSONDecodeError "")) 0)))
           (BrokenPipeError
              ("A new " ++ quoted "session_id" ++ " is required."))).
  reflexivity.
Defined.

(** X9 at a body of updates received at the epoch, local time one hour
    ahead, the clock ticking once between its two readings. *)
Lemma fetch_data_return_logs_fields_witness :
  map lr_args
      (log (snd (fetch_data demo_url demo_headers [] demo_offset "sid"
                   None None
                   (world_of (answering
                      (response_of demo_updates 200
                         (inl (JSONDecodeError "")) 0))))))
  = [[ArgStr demo_updates]; [ArgStr "1970-01-01 01:00:00"]; [ArgInt 1]].
Proof.
  rewrite (fetch_data_return_logs_fields demo_url demo_headers [] demo_offset
             "sid" None None
             (world_of (answering
                (response_of demo_updates 200 (inl (JSONDecodeError "")) 0)))
             {| response_json := demo_updates;
                metadata := {| response_datetime := "1970-01-01 01:00:00";
                               request_duration := 1 |} |}
             eq_refl).
  reflexivity.
Defined.


(** X11 at the reset literal followed by a line feed. *)
Lemma fetch_data_exact_match_witness :
  exists raw,
    fst (fetch_data demo_url demo_headers [] demo_offset "sid" None None
           (world_of (answering
              (response_of (session_reset_body ++ String "010" "") 200
                 (inl (JSONDecodeError "")) 0))))
    = Return raw
    /\ response_json raw = session_reset_body ++ String "010" "".
Proof.
  apply (fetch_data_exact_match demo_url demo_headers [] demo_offset
           "sid" None None
           (world_of (answering
              (response_of (session_reset_body ++ String "010" "") 200
                 (inl (JSONDecodeError "")) 0)))
           _ (String "010" "") eq_refl).
  - discriminate.
  - left. reflexivity.
Defined.

(** X12 at a subscription sent twice. *)
Lemma subscribe_twice_witness :
  map (fun p => data (p_request p))
      (sent (snd ((subscribe demo_url demo_headers [] 0 1 demo_request
                     "sid" None None ;;
                   subscribe demo_url demo_headers [] 0 1 demo_request
                     "sid" None None)
                    (world_of (answering demo_ok)))))
  = [Some ("{" ++ quoted "controlData" ++ ":" ++ dquote
           ++ "req(5.LastPrice);" ++ dquote ++ "}");
     Some ("{" ++ quoted "controlData" ++ ":" ++ dquote
           ++ "req(5.LastPrice);" ++ dquote ++ "}")].
Proof.
  rewrite (subscribe_twice demo_url demo_headers [] 0 1 demo_request
             "sid" None None (world_of (answering demo_ok))
             (or_introl eq_refl)).
  reflexivity.
Defined.

(** X13 at the labels B then A of product 360148977. *)
Lemma subscribe_tokens_terminated_witness :
  sent (snd (subscribe demo_url demo_headers [] 0 1
               {| action := 0; product_id := 360148977;
                  label_list := ["B"; "A"] |}
               "sid" None None (world_of (answering demo_ok))))
  = [control_request demo_url demo_headers []
       ("{" ++ quoted "controlData" ++ ":" ++ dquote
        ++ ("req(360148977.B);" ++ "req(360148977.A);") ++ dquote ++ "}")
       "sid" None].
Proof.
  apply (subscribe_tokens_terminated demo_url demo_headers [] 0 1
           {| action := 0; product_id := 360148977; label_list := ["B"; "A"] |}
           "sid" None None (world_of (answering demo_ok))
           (or_introl eq_refl)).
  discriminate.
Defined.

(** X14 at one label that reads as the labels A and B. *)
Lemma subscribe_labels_not_escaped_witness :
  sent (snd (subscribe demo_url demo_headers [] 0 1
               {| action := 0; product_id := 5;
                  label_list := ["A);req(5.B"] |}
               "sid" None None (world_of (answering demo_ok))))
  = sent (snd (subscribe demo_url demo_headers [] 0 1
                 {| action := 0; product_id := 5; label_list := ["A"; "B"] |}
                 "sid" None None (world_of (answering demo_ok)))).
Proof.
  apply (subscribe_labels_not_escaped demo_url demo_headers [] 0 1 0 5
           [] [] "A" "B" "sid" None None (world_of (answering demo_ok))
           (or_introl eq_refl)).
Defined.

(** X15 at a transport that times out. *)
Lemma subscribe_fatal_iff_transport_failure_witness :
  exists recs,
    log (snd (subscribe demo_url demo_headers [] 0 1 demo_request
                "sid" None None (world_of (failing (Timeout "")))))
    = recs
    /\ ((exists rec, In rec recs /\ lr_level rec = FATAL)
        <-> exists e,
            failing (Timeout "")
              (subscribe_request demo_url demo_headers [] 0 demo_request
                 "sid" None)
            = Fails e).
Proof.
  apply (subscribe_fatal_iff_transport_failure demo_url demo_headers [] 0 1
           demo_request "sid" None None (world_of (failing (Timeout "")))
           (or_introl eq_refl)).
Defined.

(** X16 at a subscription that is answered. *)
Lemma subscribe_logs_body_sent_witness :
  exists body rest,
    sent (snd (subscribe demo_url demo_headers [] 0 1 demo_request
                 "sid" None None (world_of (answering demo_ok))))
    = [control_request demo_url demo_headers [] body "sid" None]
    /\ log (snd (subscribe demo_url demo_headers [] 0 1 demo_request
                    "sid" None None (world_of (answering demo_ok))))
       = Build_LogRecord (build_logger) INFO
           (ArgStr "subscribe:payload: %s") [ArgStr body]
         :: rest.
Proof.
  apply (subscribe_logs_body_sent demo_url demo_headers [] 0 1 demo_request
           "sid" None None (world_of (answering demo_ok))
           (or_introl eq_refl)).
Defined.
